(** * functions/api/chat.js: the chat proxy of kazakhstan-helper

    A shallow embedding of [onRequestPost] (a Cloudflare Pages function) and
    of its local helpers [fetchWithTimeout] and [parseOpenAICompat], followed
    by the properties of the prompt composer, of the response normalizer and
    of the GROQ-then-DEEPSEEK fallback.

    What belongs to the JavaScript runtime and to the network is kept
    abstract: the rendering of a number, [JSON.parse], [JSON.stringify] and
    [fetch] are the fields of a [Runtime], and every theorem holds for all
    of them. *)

From Stdlib Require Import List NArith Bool Ascii String Lia.
From Stdlib Require Import Decimal Floats PeanoNat.
Import ListNotations.

Set Warnings "-register-all".
Local Open Scope N_scope.

(** ** Strings

    A JavaScript string is a sequence of UTF-16 code units; [slice] and [+]
    work on code units, so that is what a [jsstring] lists. *)

Definition codeunit := N.
Definition jsstring := list codeunit.

(** An ASCII literal of the source, as code units. *)
Definition lit (s : string) : jsstring :=
  map N_of_ascii (list_ascii_of_string s).

Fixpoint str_eqb (a b : jsstring) : bool :=
  match a, b with
  | [], [] => true
  | x :: a', y :: b' => N.eqb x y && str_eqb a' b'
  | _, _ => false
  end.

(** [Array.prototype.join] on an array of strings. *)
Fixpoint join (sep : jsstring) (l : list jsstring) : jsstring :=
  match l with
  | [] => []
  | a :: r =>
      match r with
      | [] => a
      | _ :: _ => a ++ sep ++ join sep r
      end
  end.

(** [raw.slice(0, n)] for a non-negative [n]. *)
Definition slice0 (n : nat) (raw : jsstring) : jsstring := firstn n raw.

(** [s] occurs in [m] as a contiguous run of code units. *)
Definition contains (s m : jsstring) : Prop :=
  exists pre post, m = pre ++ s ++ post.

Fixpoint prefixb (s m : jsstring) : bool :=
  match s, m with
  | [], _ => true
  | x :: s', y :: m' => N.eqb x y && prefixb s' m'
  | _ :: _, [] => false
  end.

Fixpoint containsb (s m : jsstring) : bool :=
  prefixb s m ||
  match m with
  | [] => false
  | _ :: m' => containsb s m'
  end.

(** The decimal digits of a non-negative integer, as in a template literal. *)
Fixpoint uint_codes (d : uint) : jsstring :=
  match d with
  | Nil => []
  | D0 r => 48 :: uint_codes r
  | D1 r => 49 :: uint_codes r
  | D2 r => 50 :: uint_codes r
  | D3 r => 51 :: uint_codes r
  | D4 r => 52 :: uint_codes r
  | D5 r => 53 :: uint_codes r
  | D6 r => 54 :: uint_codes r
  | D7 r => 55 :: uint_codes r
  | D8 r => 56 :: uint_codes r
  | D9 r => 57 :: uint_codes r
  end.

Definition decimal (n : N) : jsstring := uint_codes (N.to_uint n).

(** ** Errors and results *)

(** Everything this handler can throw or catch is an Error-like object
    (Error, TypeError, SyntaxError, the AbortError of an aborted fetch); the
    handler reads its [message] and, through [String(e)], its [name]. *)
Record exn : Type := mkExn { exn_name : jsstring; exn_message : jsstring }.

Definition Error (message : jsstring) : exn := mkExn (lit "Error") message.
Definition TypeError (message : jsstring) : exn := mkExn (lit "TypeError") message.

(** [Error.prototype.toString]. *)
Definition exn_toString (e : exn) : jsstring :=
  match exn_name e, exn_message e with
  | [], msg => msg
  | name, [] => name
  | name, msg => name ++ lit ": " ++ msg
  end.

(** An expression or an awaited promise either yields a value or throws. *)
Inductive outcome (A : Type) : Type :=
| Returned (a : A)
| Thrown (e : exn).
Arguments Returned {A} a.
Arguments Thrown {A} e.

Definition obind {A B} (m : outcome A) (k : A -> outcome B) : outcome B :=
  match m with
  | Returned a => k a
  | Thrown e => Thrown e
  end.

Declare Scope js_scope.
Delimit Scope js_scope with js.
Notation "x <~ m ; k" := (obind m (fun x => k))
  (at level 61, m at next level, right associativity) : js_scope.

(** ** HTTP plumbing *)

Definition headers := list (jsstring * jsstring).

(** A call handed to [fetch], with the deadline [fetchWithTimeout] sets. *)
Record fetch_call : Type := mkCall {
  call_url : jsstring;
  call_method : jsstring;
  call_headers : headers;
  call_body : jsstring;
  call_timeout : N
}.

(** A completed exchange with a provider: [res.status] and what
    [await res.text()] gives (reading the body can itself reject). *)
Record provider_response : Type := mkProv {
  res_status : N;
  res_text : outcome jsstring
}.

(** [res.ok]: the status is in the range 200-299. *)
Definition res_ok (res : provider_response) : bool :=
  (200 <=? res_status res) && (res_status res <=? 299).

(** The [Response] the handler builds. *)
Record Response : Type := new_Response {
  resp_body : jsstring;
  resp_status : N;
  resp_headers : headers
}.

(** The incoming request: its method and the text of its body. *)
Record Request : Type := mkRequest {
  req_method : jsstring;
  req_body : jsstring
}.

(** [env]: each binding is a text variable or is absent ([undefined]). *)
Record Env : Type := mkEnv {
  GROQ_API_KEY : option jsstring;
  GROQ_MODEL : option jsstring;
  DEEPSEEK_API_KEY : option jsstring;
  DEEPSEEK_MODEL : option jsstring
}.

(** Truthiness of a binding: defined and not the empty string. *)
Definition env_truthy (x : option jsstring) : bool :=
  match x with
  | Some (_ :: _) => true
  | _ => false
  end.

(** [x || dflt] on a binding. *)
Definition env_or (x : option jsstring) (dflt : jsstring) : jsstring :=
  match x with
  | Some (c :: s) => c :: s
  | _ => dflt
  end.

(** [${x}] in a template literal. *)
Definition env_template (x : option jsstring) : jsstring :=
  match x with
  | Some s => s
  | None => lit "undefined"
  end.

(** The handler's effect: the [fetch] calls it issued, in order, and how it
    ended. *)
Definition M (A : Type) : Type := (list fetch_call * outcome A)%type.

Definition ret {A} (a : A) : M A := ([], Returned a).
Definition throw {A} (e : exn) : M A := ([], Thrown e).
Definition lift {A} (o : outcome A) : M A := ([], o).

Definition bind {A B} (m : M A) (k : A -> M B) : M B :=
  match m with
  | (log, Returned a) => let (log', r) := k a in (log ++ log', r)
  | (log, Thrown e) => (log, Thrown e)
  end.

(** [try { m } catch (e) { h e }]. *)
Definition try_catch {A} (m : M A) (h : exn -> M A) : M A :=
  match m with
  | (log, Returned a) => (log, Returned a)
  | (log, Thrown e) => let (log', r) := h e in (log ++ log', r)
  end.

Definition calls {A} (m : M A) : list fetch_call := fst m.
Definition result {A} (m : M A) : outcome A := snd m.

Notation "x <- m ;; k" := (bind m (fun x => k))
  (at level 61, m at next level, right associativity) : js_scope.

Local Open Scope js_scope.

(** ** Values

    What [JSON.parse] can produce, plus [undefined], which property reads
    and optional chaining produce.  A number is an IEEE double; an object
    lists its own properties. *)
Inductive value : Type :=
| JUndefined
| JNull
| JBool (b : bool)
| JNumber (n : float)
| JString (s : jsstring)
| JArray (items : list value)
| JObject (props : list (jsstring * value)).

(** ToBoolean. *)
Definition truthy (v : value) : bool :=
  match v with
  | JUndefined | JNull => false
  | JBool b => b
  | JNumber n => negb (PrimFloat.is_zero n || PrimFloat.is_nan n)
  | JString [] => false
  | JString (_ :: _) => true
  | JArray _ | JObject _ => true
  end.

(** [a || b]. *)
Definition or_else (a b : value) : value := if truthy a then a else b.

Notation "a ||| b" := (or_else a b) (at level 50, left associativity).

Fixpoint own (key : jsstring) (props : list (jsstring * value)) : option value :=
  match props with
  | [] => None
  | (k, v) :: rest => if str_eqb k key then Some v else own key rest
  end.

(** [v.key], for the property names the handler reads ([messages],
    [targetLang], [style], [error], [message], [choices], [text],
    [content]): none of them is defined on a built-in prototype, so the read
    finds an own property of an object or gives [undefined].  On [null] and
    [undefined] the read throws (V8's wording). *)
Definition get (v : value) (key : jsstring) : outcome value :=
  match v with
  | JUndefined =>
      Thrown (TypeError (lit "Cannot read properties of undefined (reading '"
                           ++ key ++ lit "')"))
  | JNull =>
      Thrown (TypeError (lit "Cannot read properties of null (reading '"
                           ++ key ++ lit "')"))
  | JObject props =>
      match own key props with
      | Some x => Returned x
      | None => Returned JUndefined
      end
  | _ => Returned JUndefined
  end.

(** [v?.key]. *)
Definition opt_get (v : value) (key : jsstring) : value :=
  match v with
  | JObject props =>
      match own key props with
      | Some x => x
      | None => JUndefined
      end
  | _ => JUndefined
  end.

(** [v?.[0]]: the first element of an array, the first code unit of a
    string, the property ["0"] of an object. *)
Definition opt_first (v : value) : value :=
  match v with
  | JArray (x :: _) => x
  | JString (c :: _) => JString [c]
  | JObject props =>
      match own (lit "0") props with
      | Some x => x
      | None => JUndefined
      end
  | _ => JUndefined
  end.

(** ** The runtime, kept abstract *)

Record Runtime : Type := mkRuntime {
  (** [String(n)] on a number. *)
  Number_toString : float -> jsstring;
  (** [JSON.parse text]: the parsed value, or [None] for the SyntaxError. *)
  JSON_parse : jsstring -> option value;
  (** [JSON.stringify v], on values and on the object literals of the handler. *)
  JSON_stringify : value -> jsstring;
  (** The network: what the exchange behind a call comes to, a completed
      response of any status, or a rejection (connection error, or the abort
      that the deadline of the call triggers). *)
  fetch : fetch_call -> outcome provider_response
}.

Section Code.

Variable rt : Runtime.

(** ToString.  An array joins its elements with a comma, [null] and
    [undefined] elements counting as empty.  A plain object renders as
    [[object Object]], unless it has an own [toString] property: that
    property, coming from JSON, is not callable, the inherited [valueOf]
    returns the object itself, and the conversion throws. *)
Fixpoint ToString (v : value) : outcome jsstring :=
  match v with
  | JUndefined => Returned (lit "undefined")
  | JNull => Returned (lit "null")
  | JBool true => Returned (lit "true")
  | JBool false => Returned (lit "false")
  | JNumber n => Returned (Number_toString rt n)
  | JString s => Returned s
  | JArray items =>
      ss <~ (fix each (l : list value) : outcome (list jsstring) :=
               match l with
               | [] => Returned []
               | x :: r =>
                   s <~ match x with
                        | JUndefined | JNull => Returned []
                        | _ => ToString x
                        end;
                   rest <~ each r;
                   Returned (s :: rest)
               end) items;
      Returned (join (lit ",") ss)
  | JObject props =>
      match own (lit "toString") props with
      | Some _ => Thrown (TypeError (lit "Cannot convert object to primitive value"))
      | None => Returned (lit "[object Object]")
      end
  end.

(** [throw new Error(v)] for a [v] that is not [undefined]: the message is
    [String(v)], and a failing conversion throws in its place. *)
Definition throw_new_Error {A} (v : value) : outcome A :=
  msg <~ ToString v;
  Thrown (Error msg).

(** ** The prompt composer (lines 23-48) *)

Definition corsHeaders : headers :=
  [ (lit "Access-Control-Allow-Origin", lit "*");
    (lit "Access-Control-Allow-Methods", lit "POST,OPTIONS");
    (lit "Access-Control-Allow-Headers", lit "Content-Type, Authorization");
    (lit "Content-Type", lit "application/json; charset=utf-8") ].

(** [Array.isArray(body.messages) ? body.messages : []]. *)
Definition messages (body_messages : value) : list value :=
  match body_messages with
  | JArray items => items
  | _ => []
  end.

(** [body.targetLang || "kk"]. *)
Definition targetLang (body_targetLang : value) : value :=
  body_targetLang ||| JString (lit "kk").

(** [body.style || "normal"]. *)
Definition style (body_style : value) : value :=
  body_style ||| JString (lit "normal").

(** [v === "literal"]. *)
Definition is_string (v : value) (s : jsstring) : bool :=
  match v with
  | JString t => str_eqb t s
  | _ => false
  end.

Definition langRule (targetLang : value) : jsstring :=
  if is_string targetLang (lit "kk") then
    lit "Reply ONLY in Kazakh. Never use English."
  else if is_string targetLang (lit "ru") then
    lit "Reply ONLY in Russian. Never use English."
  else
    lit "Reply ONLY in Simplified Chinese. Never use English.".

Definition styleRule (style : value) : jsstring :=
  if is_string style (lit "concise") then lit "Be concise."
  else if is_string style (lit "polite") then lit "Be polite."
  else lit "Be natural and helpful.".

Definition system (langRule styleRule : jsstring) : jsstring :=
  join (lit " ")
    [ lit "You are a travel translation and phrase assistant for Kazakhstan.";
      langRule;
      styleRule;
      lit "When helpful, output short, ready-to-say phrases." ].

Definition system_message (system : jsstring) : value :=
  JObject [ (lit "role", JString (lit "system")); (lit "content", JString system) ].

Definition finalMessages (system : jsstring) (messages : list value) : list value :=
  system_message system :: messages.

(** Lines 23-48 on a parsed body: the three property reads, then the
    message list. *)
Definition compose (body : value) : outcome (list value) :=
  body_messages <~ get body (lit "messages");
  body_targetLang <~ get body (lit "targetLang");
  body_style <~ get body (lit "style");
  Returned (finalMessages
              (system (langRule (targetLang body_targetLang))
                      (styleRule (style body_style)))
              (messages body_messages)).

(** ** fetchWithTimeout (lines 51-60)

    One call to [fetch], with the abort deadline [ms]; the call is recorded. *)
Definition fetchWithTimeout (url : jsstring) (method : jsstring)
    (hdrs : headers) (body : jsstring) (ms : N) : M provider_response :=
  let c := mkCall url method hdrs body ms in
  ([c], fetch rt c).

(** ** parseOpenAICompat (lines 63-78) *)

(** Line 66: the parsed body, or the synthetic error object. *)
Definition parsed (raw : jsstring) : value :=
  match JSON_parse rt raw with
  | Some data => data
  | None => JObject [ (lit "error", JString (slice0 300 raw)) ]
  end.

Definition parseOpenAICompat (res : provider_response) : outcome value :=
  raw <~ res_text res;
  let data := parsed raw in
  if negb (res_ok res) then
    throw_new_Error
      (opt_get (opt_get data (lit "error")) (lit "message")
       ||| opt_get data (lit "error")
       ||| JString (lit "HTTP " ++ decimal (res_status res)))
  else
    let text :=
      opt_get (opt_get (opt_first (opt_get data (lit "choices"))) (lit "message"))
              (lit "content")
      ||| opt_get (opt_first (opt_get data (lit "choices"))) (lit "text")
      ||| opt_get data (lit "text")
      ||| JString [] in
    if negb (truthy text) then Thrown (Error (lit "Empty response text"))
    else Returned text.

(** ** The fallback (lines 83-135) *)

Definition groq_url : jsstring := lit "https://api.groq.com/openai/v1/chat/completions".
Definition deepseek_url : jsstring := lit "https://api.deepseek.com/chat/completions".

(** The request headers of a provider call. *)
Definition provider_headers (key : option jsstring) : headers :=
  [ (lit "Content-Type", lit "application/json");
    (lit "Authorization", lit "Bearer " ++ env_template key) ].

(** The literal [0.4]: the double nearest to it. *)
Definition temperature : float := 0x1.999999999999ap-2%float.

(** The object a provider call stringifies into its body. *)
Definition payload (model : jsstring) (finalMessages : list value) : value :=
  JObject [ (lit "model", JString model);
            (lit "messages", JArray finalMessages);
            (lit "temperature", JNumber temperature) ].

(** The object of a successful reply. *)
Definition success_body (text : value) (engine : jsstring) : value :=
  JObject [ (lit "text", text); (lit "engine", JString engine) ].

(** The body of the outer [try] (lines 86-106). *)
Definition groq_attempt (env : Env) (finalMessages : list value) : M Response :=
  if env_truthy (GROQ_API_KEY env) then
    groqRes <- fetchWithTimeout groq_url (lit "POST")
                 (provider_headers (GROQ_API_KEY env))
                 (JSON_stringify rt
                    (payload (env_or (GROQ_MODEL env) (lit "llama-3.3-70b-versatile"))
                             finalMessages))
                 6500 ;;
    text <- lift (parseOpenAICompat groqRes) ;;
    ret (new_Response (JSON_stringify rt (success_body text (lit "GROQ"))) 200 corsHeaders)
  else
    throw (Error (lit "GROQ not configured")).

(** The body of the inner [try] (lines 111-128). *)
Definition deepseek_attempt (env : Env) (finalMessages : list value) : M Response :=
  deepseekRes <- fetchWithTimeout deepseek_url (lit "POST")
                   (provider_headers (DEEPSEEK_API_KEY env))
                   (JSON_stringify rt
                      (payload (env_or (DEEPSEEK_MODEL env) (lit "deepseek-chat"))
                               finalMessages))
                   8500 ;;
  text <- lift (parseOpenAICompat deepseekRes) ;;
  ret (new_Response (JSON_stringify rt (success_body text (lit "DEEPSEEK"))) 200 corsHeaders).

(** The one call each attempt issues. *)
Definition groq_call (env : Env) (finalMessages : list value) : fetch_call :=
  mkCall groq_url (lit "POST") (provider_headers (GROQ_API_KEY env))
    (JSON_stringify rt
       (payload (env_or (GROQ_MODEL env) (lit "llama-3.3-70b-versatile"))
                finalMessages))
    6500.

Definition deepseek_call (env : Env) (finalMessages : list value) : fetch_call :=
  mkCall deepseek_url (lit "POST") (provider_headers (DEEPSEEK_API_KEY env))
    (JSON_stringify rt
       (payload (env_or (DEEPSEEK_MODEL env) (lit "deepseek-chat"))
                finalMessages))
    8500.

(** [String(e.message || e)]. *)
Definition describe (e : exn) : jsstring :=
  match exn_message e with
  | [] => exn_toString e
  | msg => msg
  end.

(** The code units of the two Chinese words of the failure text: "failed" followed by
    a full-width colon, and the full-width semicolon. *)
Definition failed_colon : jsstring := [0x5931; 0x8D25; 0xFF1A].
Definition wide_semicolon : jsstring := [0xFF1B].

(** The template literal of line 131. *)
Definition failure_message (e1 e2 : exn) : jsstring :=
  lit "GROQ" ++ failed_colon ++ describe e1 ++ wide_semicolon
  ++ lit "DEEPSEEK" ++ failed_colon ++ describe e2.

Definition failure_response (e1 e2 : exn) : Response :=
  new_Response
    (JSON_stringify rt (JObject [ (lit "error", JString (failure_message e1 e2)) ]))
    500 corsHeaders.

Definition fallback (env : Env) (finalMessages : list value) : M Response :=
  try_catch (groq_attempt env finalMessages) (fun e1 =>
    try_catch (deepseek_attempt env finalMessages) (fun e2 =>
      ret (failure_response e1 e2))).

(** ** onRequestPost *)

Definition invalid_json_response : Response :=
  new_Response
    (JSON_stringify rt (JObject [ (lit "error", JString (lit "Invalid JSON")) ]))
    400 corsHeaders.

Definition onRequestPost (request : Request) (env : Env) : M Response :=
  if str_eqb (req_method request) (lit "OPTIONS") then
    ret (new_Response [] 200 corsHeaders)
  else
    match JSON_parse rt (req_body request) with
    | None => ret invalid_json_response
    | Some body =>
        finalMessages <- lift (compose body) ;;
        fallback env finalMessages
    end.

End Code.

(** ** A scripted runtime for the examples

    The examples run the handler against a runtime whose [JSON.parse] knows
    a handful of texts and whose network answers each provider with a
    response fixed in advance. *)

(** A JSON text of the examples, written with ['] for the double quote. *)
Definition json (s : string) : jsstring :=
  map (fun c => if N.eqb c 39 then 34 else c) (lit s).

(** "Salem" in Kazakh: S, U+04D9, l, e, m. *)
Definition salem : jsstring := [83; 0x04D9; 108; 101; 109].

Definition salem_text : jsstring :=
  json "{'choices':[{'message':{'content':'S" ++ [0x04D9] ++ json "lem'}}]}".

Definition salem_data : value :=
  JObject [ (lit "choices",
             JArray [ JObject [ (lit "message",
                                 JObject [ (lit "content", JString salem) ]) ] ]) ].

Definition user_hi : value :=
  JObject [ (lit "role", JString (lit "user")); (lit "content", JString (lit "hi")) ].

Definition scripted_texts : list (jsstring * value) :=
  [ (json "{}", JObject []);
    (json "null", JNull);
    (json "{'error':{'message':'quota exceeded'}}",
     JObject [ (lit "error", JObject [ (lit "message", JString (lit "quota exceeded")) ]) ]);
    (json "{'error':{'toString':1}}",
     JObject [ (lit "error", JObject [ (lit "toString", JNumber 1%float) ]) ]);
    (salem_text, salem_data);
    (json "{'targetLang':'zh'}", JObject [ (lit "targetLang", JString (lit "zh")) ]);
    (json "{'targetLang':''}", JObject [ (lit "targetLang", JString []) ]);
    (json "{'messages':[{'role':'user','content':'hi'}]}",
     JObject [ (lit "messages", JArray [ user_hi ]) ]) ].

Definition scripted_parse (text : jsstring) : option value :=
  own text scripted_texts.

Definition scripted_Number_toString (n : float) : jsstring :=
  if PrimFloat.eqb n temperature then lit "0.4"
  else if PrimFloat.eqb n 1%float then lit "1"
  else lit "0".

(** A serializer that is enough for the examples: it writes no escapes. *)
Fixpoint scripted_stringify (v : value) : jsstring :=
  match v with
  | JUndefined | JNull => lit "null"
  | JBool true => lit "true"
  | JBool false => lit "false"
  | JNumber n => scripted_Number_toString n
  | JString s => [34] ++ s ++ [34]
  | JArray items =>
      lit "[" ++ join (lit ",") (map scripted_stringify items) ++ lit "]"
  | JObject props =>
      lit "{"
      ++ join (lit ",")
           ((fix each (l : list (jsstring * value)) : list jsstring :=
               match l with
               | [] => []
               | (k, x) :: r => ([34] ++ k ++ [34] ++ lit ":" ++ scripted_stringify x) :: each r
               end) props)
      ++ lit "}"
  end.

(** The network answers GROQ's endpoint with [groq] and any other with
    [deepseek]. *)
Definition scripted_fetch (groq deepseek : outcome provider_response)
    (c : fetch_call) : outcome provider_response :=
  if str_eqb (call_url c) groq_url then groq else deepseek.

Definition scripted (groq deepseek : outcome provider_response) : Runtime :=
  mkRuntime scripted_Number_toString scripted_parse scripted_stringify
            (scripted_fetch groq deepseek).

Definition aborted : exn :=
  mkExn (lit "AbortError") (lit "The operation was aborted").

Definition completed (status : N) (text : jsstring) : outcome provider_response :=
  Returned (mkProv status (Returned text)).

Definition both_keys : Env :=
  mkEnv (Some (lit "gsk-1")) None (Some (lit "sk-2")) None.

Definition no_keys : Env := mkEnv None None None None.

Definition post (body : jsstring) : Request := mkRequest (lit "POST") body.

Definition quota_text : jsstring := json "{'error':{'message':'quota exceeded'}}".

Definition unconvertible_text : jsstring := json "{'error':{'toString':1}}".

Definition gateway_page : jsstring := lit "<html>Bad Gateway</html>".

(** GROQ answers 500 with a JSON error, DEEPSEEK runs into its deadline. *)
Definition both_fail : Runtime :=
  scripted (completed 500 quota_text) (Thrown aborted).

(** GROQ answers 200 with a completion. *)
Definition groq_answers : Runtime :=
  scripted (completed 200 salem_text) (Thrown aborted).

(** The message list composed for a body without [targetLang] and [style]. *)
Definition default_prompt (messages : list value) : list value :=
  finalMessages
    (system (lit "Reply ONLY in Kazakh. Never use English.")
            (lit "Be natural and helpful."))
    messages.

(** ** Attempts and timers, in more detail *)

(** How an attempt that issued the call [c] ends: the reply in the name of
    [engine], or the failure of the call, of the body read or of the
    normalizer (lines 87-104 and 111-128). *)
Definition attempt_outcome (rt : Runtime) (engine : jsstring) (c : fetch_call)
    : outcome Response :=
  res <~ fetch rt c;
  text <~ parseOpenAICompat rt res;
  Returned (new_Response (JSON_stringify rt (success_body text engine)) 200
                         corsHeaders).

(** The timers of the runtime: the identifier [setTimeout] hands out next,
    and the timers that are set and not cleared, with their delays. *)
Record Timers : Type := mkTimers {
  next_timer : nat;
  pending : list (nat * N)
}.

Definition setTimeout (ms : N) (t : Timers) : nat * Timers :=
  (next_timer t, mkTimers (S (next_timer t)) ((next_timer t, ms) :: pending t)).

Definition clearTimeout (id : nat) (t : Timers) : Timers :=
  mkTimers (next_timer t)
           (filter (fun p => negb (Nat.eqb (fst p) id)) (pending t)).

(** Identifiers are handed out in increasing order. *)
Definition timers_ok (t : Timers) : Prop :=
  forall p, In p (pending t) -> (fst p < next_timer t)%nat.

(** A computation that also sets and clears timers. *)
Definition Timed (A : Type) : Type := Timers -> M A * Timers.

(** [try { m } finally { f }] for a finalizer that only clears timers: it
    runs however [m] ends, and [m]'s result or error goes through. *)
Definition try_finally {A} (m : Timed A) (f : Timers -> Timers) : Timed A :=
  fun t => let (r, t') := m t in (r, f t').

(** Lines 51-60 with the timer: [setTimeout], then the call under the abort
    signal of that deadline, then [clearTimeout] in the [finally].  (A timer
    that fires leaves the pending ones by itself; clearing it afterwards
    changes nothing, so it is kept until the [finally] here.) *)
Definition fetchWithTimeout_timers (rt : Runtime) (url method : jsstring)
    (hdrs : headers) (body : jsstring) (ms : N) : Timed provider_response :=
  fun t0 =>
    let (id, t1) := setTimeout ms t0 in
    try_finally (fun t => (fetchWithTimeout rt url method hdrs body ms, t))
                (clearTimeout id) t1.

(** More scripted scenarios. *)

(** A preflight request; its body is not even JSON. *)
Definition preflight : Request := mkRequest (lit "OPTIONS") (lit "not json").

(** GROQ runs into its deadline, DEEPSEEK answers 200 with a completion. *)
Definition deepseek_answers : Runtime :=
  scripted (Thrown aborted) (completed 200 salem_text).

(** GROQ's call is rejected with an error that has no message. *)
Definition groq_rejects_silently : Runtime :=
  scripted (Thrown (TypeError [])) (Thrown aborted).

Definition empty_groq_key : Env := mkEnv (Some []) None (Some (lit "sk-2")) None.

Definition two_timers : Timers := mkTimers 5 [ (4%nat, 8500); (1%nat, 6500) ].

(** A text in the words of the specification: a string that is not empty. *)
Definition nonempty_text (v : value) : bool :=
  match v with
  | JString (_ :: _) => true
  | _ => false
  end.

(** A completion whose content is an empty array. *)
Definition empty_array_text : jsstring :=
  json "{'choices':[{'message':{'content':[]}}]}".

Definition empty_array_data : value :=
  JObject [ (lit "choices",
             JArray [ JObject [ (lit "message",
                                 JObject [ (lit "content", JArray []) ]) ] ]) ].

(** GROQ answers 200 with that completion. *)
Definition answers_empty_array : Runtime :=
  mkRuntime scripted_Number_toString
            (fun text => if str_eqb text empty_array_text then Some empty_array_data
                         else scripted_parse text)
            scripted_stringify
            (scripted_fetch (completed 200 empty_array_text) (Thrown aborted)).

(** * Properties *)

Section Properties.

Variable rt : Runtime.

(** ** Basic facts *)

Lemma str_eqb_refl (a : jsstring) : str_eqb a a = true.
Proof.
  induction a as [|x a IH]; simpl; [reflexivity|].
  now rewrite N.eqb_refl, IH.
Qed.

Lemma str_eqb_eq (a b : jsstring) : str_eqb a b = true <-> a = b.
Proof.
  split.
  - revert b. induction a as [|x a IH]; intros [|y b]; simpl; try discriminate.
    + reflexivity.
    + intros H. apply andb_true_iff in H as [Hx Hr].
      apply N.eqb_eq in Hx. subst y. now rewrite (IH b Hr).
  - intros ->. apply str_eqb_refl.
Qed.

Lemma str_eqb_neq (a b : jsstring) : str_eqb a b = false <-> a <> b.
Proof.
  split.
  - intros H E. apply str_eqb_eq in E. congruence.
  - intros H. destruct (str_eqb a b) eqn:E; [|reflexivity].
    apply str_eqb_eq in E. contradiction.
Qed.

Lemma is_string_true (v : value) (s : jsstring) :
  is_string v s = true <-> v = JString s.
Proof.
  destruct v; simpl; try (split; [discriminate | intros H; discriminate H]).
  rewrite str_eqb_eq. split; [now intros -> | now intros [= ->]].
Qed.

Lemma is_string_false (v : value) (s : jsstring) :
  is_string v s = false <-> v <> JString s.
Proof.
  split.
  - intros H E. apply is_string_true in E. congruence.
  - intros H. destruct (is_string v s) eqn:E; [|reflexivity].
    apply is_string_true in E. contradiction.
Qed.

(** A string is truthy exactly when it is not empty. *)
Lemma truthy_string (s : jsstring) : truthy (JString s) = true <-> s <> [].
Proof. destruct s; simpl; split; congruence. Qed.

Lemma or_else_l (a b : value) : truthy a = true -> a ||| b = a.
Proof. unfold or_else. now intros ->. Qed.

Lemma or_else_r (a b : value) : truthy a = false -> a ||| b = b.
Proof. unfold or_else. now intros ->. Qed.

(** A read that succeeds on one name succeeds on every name. *)
Lemma get_succeeds (body x : value) (k k' : jsstring) :
  get body k = Returned x -> exists y, get body k' = Returned y.
Proof.
  destruct body; simpl; try discriminate; intros _; try (now eexists).
  destruct (own k' props); now eexists.
Qed.

(** An absent property reads as [undefined]. *)
Lemma get_absent (props : list (jsstring * value)) (k : jsstring) :
  own k props = None -> get (JObject props) k = Returned JUndefined.
Proof. intros H. simpl. now rewrite H. Qed.

Lemma compose_returns (body bm bt bs : value) :
  get body (lit "messages") = Returned bm ->
  get body (lit "targetLang") = Returned bt ->
  get body (lit "style") = Returned bs ->
  compose body =
    Returned (finalMessages
                (system (langRule (targetLang bt)) (styleRule (style bs)))
                (messages bm)).
Proof. intros Hm Ht Hs. unfold compose. rewrite Hm, Ht, Hs. reflexivity. Qed.

(** The composed list with the system message written out. *)
Lemma compose_explicit (body bm bt bs : value) :
  get body (lit "messages") = Returned bm ->
  get body (lit "targetLang") = Returned bt ->
  get body (lit "style") = Returned bs ->
  compose body =
    Returned (JObject
                [ (lit "role", JString (lit "system"));
                  (lit "content",
                   JString (lit "You are a travel translation and phrase assistant for Kazakhstan."
                            ++ lit " " ++ langRule (targetLang bt)
                            ++ lit " " ++ styleRule (style bs)
                            ++ lit " " ++ lit "When helpful, output short, ready-to-say phrases.")) ]
              :: messages bm).
Proof.
  intros Hm Ht Hs. rewrite (compose_returns body bm bt bs Hm Ht Hs). reflexivity.
Qed.

(** Which values are truthy. *)
Lemma truthy_cases (v : value) :
  truthy v = true <->
  (exists c s, v = JString (c :: s))
  \/ v = JBool true
  \/ (exists n, v = JNumber n /\ (PrimFloat.is_zero n || PrimFloat.is_nan n)%bool = false)
  \/ (exists items, v = JArray items)
  \/ (exists props, v = JObject props).
Proof.
  split.
  - destruct v as [| |b|n|s|items|props]; simpl; try discriminate.
    + intros ->. right. now left.
    + intros H. right. right. left. exists n. split; [reflexivity|].
      now apply negb_true_iff.
    + destruct s as [|c s]; [discriminate|]. intros _. left. now exists c, s.
    + intros _. right. right. right. left. now exists items.
    + intros _. right. right. right. right. now exists props.
  - intros [(c & s & ->) | [-> | [(n & -> & H) | [(items & ->) | (props & ->)]]]];
      simpl; try reflexivity. now rewrite H.
Qed.

(** ** The call log *)

Lemma calls_bind_lift {A B} (o : outcome A) (k : A -> M B) (a : A) :
  o = Returned a -> bind (lift o) k = k a.
Proof. intros ->. unfold bind, lift. now destruct (k a). Qed.

Lemma try_catch_thrown {A} (m : M A) (h : exn -> M A) (log : list fetch_call) (e : exn) :
  m = (log, Thrown e) ->
  try_catch m h = (log ++ calls (h e), result (h e)).
Proof. intros ->. unfold try_catch, calls, result. now destruct (h e). Qed.

(** An attempt issues its call and nothing else, whatever comes back. *)
Lemma attempt_calls {A} (c : fetch_call) (k : provider_response -> M A) :
  (forall res, calls (k res) = []) ->
  calls (bind ([c], fetch rt c) k) = [c].
Proof.
  intros Hk. unfold bind, calls. destruct (fetch rt c) as [res|e]; [|reflexivity].
  specialize (Hk res). unfold calls in Hk. destruct (k res) as [log r].
  simpl in *. now subst log.
Qed.

Lemma parse_then_respond_calls (engine : jsstring) (res : provider_response) :
  calls (text <- lift (parseOpenAICompat rt res) ;;
         ret (new_Response (JSON_stringify rt (success_body text engine)) 200
                           corsHeaders)) = [].
Proof. unfold bind, lift. now destruct (parseOpenAICompat rt res). Qed.

Lemma groq_attempt_calls (env : Env) (fm : list value) :
  calls (groq_attempt rt env fm) =
    if env_truthy (GROQ_API_KEY env) then [groq_call rt env fm] else [].
Proof.
  unfold groq_attempt. destruct (env_truthy (GROQ_API_KEY env)); [|reflexivity].
  unfold fetchWithTimeout. apply attempt_calls.
  intros res. apply parse_then_respond_calls.
Qed.

Lemma deepseek_attempt_calls (env : Env) (fm : list value) :
  calls (deepseek_attempt rt env fm) = [deepseek_call rt env fm].
Proof.
  unfold deepseek_attempt, fetchWithTimeout. apply attempt_calls.
  intros res. apply parse_then_respond_calls.
Qed.

Lemma fallback_calls (env : Env) (fm : list value) :
  calls (fallback rt env fm) =
    calls (groq_attempt rt env fm)
    ++ match result (groq_attempt rt env fm) with
       | Returned _ => []
       | Thrown _ => [deepseek_call rt env fm]
       end.
Proof.
  unfold fallback.
  destruct (groq_attempt rt env fm) as [log [r|e1]] eqn:Hg.
  - simpl. now rewrite app_nil_r.
  - rewrite (try_catch_thrown _ _ log e1 eq_refl). unfold calls at 1. simpl.
    f_equal.
    pose proof (deepseek_attempt_calls env fm) as Hd.
    destruct (deepseek_attempt rt env fm) as [log2 [r2|e2]] eqn:Hd2;
      unfold calls in Hd; simpl in Hd; subst log2.
    + reflexivity.
    + rewrite (try_catch_thrown _ _ _ e2 eq_refl). reflexivity.
Qed.

(** Every call of the fallback is one of the two provider calls. *)
Lemma fallback_calls_are_provider_calls (env : Env) (fm : list value) (c : fetch_call) :
  In c (calls (fallback rt env fm)) ->
  c = groq_call rt env fm \/ c = deepseek_call rt env fm.
Proof.
  rewrite fallback_calls, groq_attempt_calls. intros H.
  apply in_app_or in H as [H|H].
  - destruct (env_truthy (GROQ_API_KEY env)); simpl in H; intuition.
  - destruct (result (groq_attempt rt env fm)); simpl in H; intuition.
Qed.

(** ** Substrings *)

Lemma contains_refl (s : jsstring) : contains s s.
Proof. exists [], []. now rewrite app_nil_r. Qed.

Lemma contains_empty (m : jsstring) : contains [] m.
Proof. now exists [], m. Qed.

Lemma contains_app_l (s a b : jsstring) : contains s a -> contains s (a ++ b).
Proof.
  intros (pre & post & ->). exists pre, (post ++ b).
  now rewrite <- !app_assoc.
Qed.

Lemma contains_app_r (s a b : jsstring) : contains s b -> contains s (a ++ b).
Proof.
  intros (pre & post & ->). exists (a ++ pre), post.
  now rewrite <- !app_assoc.
Qed.

Lemma prefixb_app (s post : jsstring) : prefixb s (s ++ post) = true.
Proof.
  induction s as [|x s IH]; simpl; [reflexivity|].
  now rewrite N.eqb_refl, IH.
Qed.

(** The executable test agrees with [contains] in the direction the
    counterexamples need. *)
Lemma contains_containsb (s m : jsstring) : contains s m -> containsb s m = true.
Proof.
  intros (pre & post & ->). induction pre as [|x pre IH].
  - simpl. destruct (s ++ post) eqn:E; simpl; rewrite <- E, prefixb_app; reflexivity.
  - simpl. rewrite IH. apply orb_true_r.
Qed.

(** ** The prompt composer *)

Lemma onRequestPost_composed (request : Request) (env : Env) (body : value)
    (fm : list value) :
  str_eqb (req_method request) (lit "OPTIONS") = false ->
  JSON_parse rt (req_body request) = Some body ->
  compose body = Returned fm ->
  onRequestPost rt request env = fallback rt env fm.
Proof.
  intros Hm Hp Hc. unfold onRequestPost. rewrite Hm, Hp.
  now apply calls_bind_lift.
Qed.

Lemma langRule_zh :
  langRule (JString (lit "zh")) = lit "Reply ONLY in Simplified Chinese. Never use English.".
Proof. reflexivity. Qed.

(** C7, as the code has it: [body.targetLang] selects the language directive
    of the system message: "kk" selects the Kazakh one, "ru" the Russian one,
    an absent or falsy value is taken for "kk" and selects the Kazakh one,
    and every other value the Simplified Chinese one; the directive is the
    second sentence of the system message that heads the composed list. *)
Theorem langRule_selected (body bt : value) :
  get body (lit "targetLang") = Returned bt ->
  exists directive tone msgs,
    compose body =
      Returned (JObject
                  [ (lit "role", JString (lit "system"));
                    (lit "content",
                     JString (lit "You are a travel translation and phrase assistant for Kazakhstan."
                              ++ lit " " ++ directive
                              ++ lit " " ++ tone
                              ++ lit " " ++ lit "When helpful, output short, ready-to-say phrases.")) ]
                :: msgs)
    /\ (bt = JString (lit "kk") ->
        directive = lit "Reply ONLY in Kazakh. Never use English.")
    /\ (bt = JString (lit "ru") ->
        directive = lit "Reply ONLY in Russian. Never use English.")
    /\ (truthy bt = false ->
        directive = lit "Reply ONLY in Kazakh. Never use English.")
    /\ (truthy bt = true -> bt <> JString (lit "kk") -> bt <> JString (lit "ru") ->
        directive = lit "Reply ONLY in Simplified Chinese. Never use English.").
Proof.
  intros Ht.
  destruct (get_succeeds body bt _ (lit "messages") Ht) as [bm Hm].
  destruct (get_succeeds body bt _ (lit "style") Ht) as [bs Hs].
  exists (langRule (targetLang bt)), (styleRule (style bs)), (messages bm).
  split; [now apply compose_explicit|]. repeat split.
  - intros ->. reflexivity.
  - intros ->. reflexivity.
  - intros Hf. unfold targetLang. now rewrite (or_else_r _ _ Hf).
  - intros Htr Hk Hr. unfold targetLang. rewrite (or_else_l _ _ Htr).
    unfold langRule. apply is_string_false in Hk. apply is_string_false in Hr.
    now rewrite Hk, Hr.
Qed.

(** C10: when [body.targetLang] is absent (it reads as [undefined]) or holds
    any falsy value, [targetLang] is "kk" and the system message carries the
    Kazakh directive. *)
Theorem falsy_targetLang_defaults_kk (body bt : value) :
  get body (lit "targetLang") = Returned bt ->
  truthy bt = false ->
  targetLang bt = JString (lit "kk")
  /\ langRule (targetLang bt) = lit "Reply ONLY in Kazakh. Never use English."
  /\ exists sr msgs,
       compose body =
         Returned (system_message
                     (system (lit "Reply ONLY in Kazakh. Never use English.") sr)
                   :: msgs).
Proof.
  intros Ht Hf.
  assert (Hk : targetLang bt = JString (lit "kk")).
  { unfold targetLang, or_else. now rewrite Hf. }
  split; [exact Hk|]. split; [now rewrite Hk|].
  destruct (get_succeeds body bt _ (lit "messages") Ht) as [bm Hm].
  destruct (get_succeeds body bt _ (lit "style") Ht) as [bs Hs].
  exists (styleRule (style bs)), (messages bm).
  rewrite (compose_returns body bm bt bs Hm Ht Hs), Hk. reflexivity.
Qed.

(** C8: every call the handler issues has as body the serialization of an
    object whose [messages] are one synthesized message of role "system"
    followed by the caller's messages as they came, in their order; a
    [body.messages] that is not an array counts as the empty list. *)
Theorem outbound_messages (request : Request) (env : Env) (body bm : value)
    (c : fetch_call) :
  JSON_parse rt (req_body request) = Some body ->
  get body (lit "messages") = Returned bm ->
  In c (calls (onRequestPost rt request env)) ->
  (exists model bt bs,
     get body (lit "targetLang") = Returned bt
     /\ get body (lit "style") = Returned bs
     /\ call_body c =
          JSON_stringify rt
            (JObject
               [ (lit "model", JString model);
                 (lit "messages",
                  JArray
                    (JObject
                       [ (lit "role", JString (lit "system"));
                         (lit "content",
                          JString (lit "You are a travel translation and phrase assistant for Kazakhstan."
                                   ++ lit " " ++ langRule (targetLang bt)
                                   ++ lit " " ++ styleRule (style bs)
                                   ++ lit " " ++ lit "When helpful, output short, ready-to-say phrases.")) ]
                     :: messages bm));
                 (lit "temperature", JNumber 0x1.999999999999ap-2%float) ]))
  /\ (forall items, bm = JArray items -> messages bm = items)
  /\ ((forall items, bm <> JArray items) -> messages bm = []).
Proof.
  intros Hp Hm Hin. split; [|split].
  - unfold onRequestPost in Hin.
    destruct (str_eqb (req_method request) (lit "OPTIONS")); [destruct Hin|].
    rewrite Hp in Hin.
    destruct (get_succeeds body bm _ (lit "targetLang") Hm) as [bt Ht].
    destruct (get_succeeds body bm _ (lit "style") Hm) as [bs Hs].
    rewrite (calls_bind_lift _ _ _ (compose_returns body bm bt bs Hm Ht Hs)) in Hin.
    apply fallback_calls_are_provider_calls in Hin as [-> | ->];
      eexists; exists bt, bs; repeat split; assumption || reflexivity.
  - intros items ->. reflexivity.
  - intros Hn. destruct bm; try reflexivity. now destruct (Hn items).
Qed.

(** The statement above is not vacuous: once a prompt is composed, the
    handler does call a provider. *)
Lemma a_provider_is_called (request : Request) (env : Env) (body : value)
    (fm : list value) :
  str_eqb (req_method request) (lit "OPTIONS") = false ->
  JSON_parse rt (req_body request) = Some body ->
  compose body = Returned fm ->
  calls (onRequestPost rt request env) <> [].
Proof.
  intros Hm Hp Hc. rewrite (onRequestPost_composed request env body fm Hm Hp Hc).
  rewrite fallback_calls, groq_attempt_calls.
  destruct (env_truthy (GROQ_API_KEY env)) eqn:K; [discriminate|].
  unfold groq_attempt. rewrite K. discriminate.
Qed.

(** ** Malformed requests *)

(** C9: a request whose body is not JSON is answered with status 400 and the
    body [{error: "Invalid JSON"}], and no provider is called. *)
Theorem invalid_json_is_400 (request : Request) (env : Env) :
  str_eqb (req_method request) (lit "OPTIONS") = false ->
  JSON_parse rt (req_body request) = None ->
  result (onRequestPost rt request env) =
    Returned (new_Response
                (JSON_stringify rt
                   (JObject [ (lit "error", JString (lit "Invalid JSON")) ]))
                400 corsHeaders)
  /\ calls (onRequestPost rt request env) = [].
Proof.
  intros Hm Hp. unfold onRequestPost. rewrite Hm, Hp. split; reflexivity.
Qed.

(** ** The response normalizer *)

Lemma own_head (k : jsstring) (v : value) (rest : list (jsstring * value)) :
  own k ((k, v) :: rest) = Some v.
Proof. simpl. now rewrite str_eqb_refl. Qed.

Lemma throw_new_Error_fails {A} (v : value) :
  exists e, @throw_new_Error rt A v = Thrown e.
Proof.
  unfold throw_new_Error. destruct (ToString rt v) as [msg|e]; simpl; now eexists.
Qed.

(** What [parseOpenAICompat] comes to once the body is read, by status. *)
Lemma parse_not_ok (res : provider_response) (raw : jsstring) :
  res_text res = Returned raw -> res_ok res = false ->
  parseOpenAICompat rt res =
    throw_new_Error rt
      (opt_get (opt_get (parsed rt raw) (lit "error")) (lit "message")
       ||| opt_get (parsed rt raw) (lit "error")
       ||| JString (lit "HTTP " ++ decimal (res_status res))).
Proof. intros Hr Hk. unfold parseOpenAICompat, obind. rewrite Hr, Hk. reflexivity. Qed.

Lemma parse_ok (res : provider_response) (raw : jsstring) :
  res_text res = Returned raw -> res_ok res = true ->
  parseOpenAICompat rt res =
    let text :=
      opt_get (opt_get (opt_first (opt_get (parsed rt raw) (lit "choices")))
                       (lit "message")) (lit "content")
      ||| opt_get (opt_first (opt_get (parsed rt raw) (lit "choices"))) (lit "text")
      ||| opt_get (parsed rt raw) (lit "text")
      ||| JString [] in
    if negb (truthy text) then Thrown (Error (lit "Empty response text"))
    else Returned text.
Proof. intros Hr Hk. unfold parseOpenAICompat, obind. rewrite Hr, Hk. reflexivity. Qed.

Lemma parsed_valid (raw : jsstring) (data : value) :
  JSON_parse rt raw = Some data -> parsed rt raw = data.
Proof. unfold parsed. now intros ->. Qed.

Lemma parsed_invalid (raw : jsstring) :
  JSON_parse rt raw = None ->
  parsed rt raw = JObject [ (lit "error", JString (slice0 300 raw)) ].
Proof. unfold parsed. now intros ->. Qed.

(** C4, as the code has it: on a success status and a body that parses, the
    normalizer returns, as it is, the first truthy of
    [choices[0].message.content], [choices[0].text] and the top-level
    [text], tried in this order, and fails with "Empty response text" when
    none is truthy.  A string is truthy exactly when it is not empty; [true],
    a number that is neither zero nor NaN, and every array and object are
    truthy too. *)
Theorem normalizer_first_text (res : provider_response) (raw : jsstring) (data : value) :
  res_text res = Returned raw ->
  res_ok res = true ->
  JSON_parse rt raw = Some data ->
  let content :=
    opt_get (opt_get (opt_first (opt_get data (lit "choices"))) (lit "message"))
            (lit "content") in
  let legacy := opt_get (opt_first (opt_get data (lit "choices"))) (lit "text") in
  let top := opt_get data (lit "text") in
  (truthy content = true -> parseOpenAICompat rt res = Returned content)
  /\ (truthy content = false -> truthy legacy = true ->
      parseOpenAICompat rt res = Returned legacy)
  /\ (truthy content = false -> truthy legacy = false -> truthy top = true ->
      parseOpenAICompat rt res = Returned top)
  /\ (truthy content = false -> truthy legacy = false -> truthy top = false ->
      parseOpenAICompat rt res = Thrown (Error (lit "Empty response text")))
  /\ (forall s, truthy (JString s) = true <-> s <> [])
  /\ (forall v,
      truthy v = true <->
      (exists c s, v = JString (c :: s))
      \/ v = JBool true
      \/ (exists n, v = JNumber n
                    /\ (PrimFloat.is_zero n || PrimFloat.is_nan n)%bool = false)
      \/ (exists items, v = JArray items)
      \/ (exists props, v = JObject props)).
Proof.
  intros Hr Hk Hp content legacy top.
  rewrite (parse_ok res raw Hr Hk), (parsed_valid raw data Hp).
  fold content legacy top. cbv zeta.
  repeat split.
  - intros H1. rewrite !(or_else_l content) by exact H1. now rewrite H1.
  - intros H1 H2. rewrite (or_else_r content), !(or_else_l legacy) by assumption.
    now rewrite H2.
  - intros H1 H2 H3.
    rewrite (or_else_r content), (or_else_r legacy), (or_else_l top) by assumption.
    now rewrite H3.
  - intros H1 H2 H3.
    rewrite (or_else_r content), (or_else_r legacy), (or_else_r top) by assumption.
    reflexivity.
  - apply truthy_string.
  - apply truthy_string.
  - apply truthy_cases.
  - apply truthy_cases.
Qed.

(** C5, as the code has it: on a body that is not JSON and a status outside
    the success range, the normalizer fails with an error whose message
    contains the first 300 code units of the body (it is those code units
    when the body is not empty, and "HTTP {status}" when it is); on a success
    status it fails with "Empty response text". *)
Theorem invalid_json_failure (res : provider_response) (raw : jsstring) :
  res_text res = Returned raw ->
  JSON_parse rt raw = None ->
  (res_ok res = false ->
   exists e,
     parseOpenAICompat rt res = Thrown e
     /\ contains (slice0 300 raw) (exn_message e)
     /\ (raw <> [] -> e = Error (slice0 300 raw))
     /\ (raw = [] -> e = Error (lit "HTTP " ++ decimal (res_status res))))
  /\ (res_ok res = true ->
      parseOpenAICompat rt res = Thrown (Error (lit "Empty response text"))).
Proof.
  intros Hr Hp. split; intros Hk.
  - rewrite (parse_not_ok res raw Hr Hk), (parsed_invalid raw Hp).
    unfold opt_get at 2 3. rewrite own_head. unfold opt_get, or_else.
    destruct raw as [|c raw'].
    + eexists. split; [reflexivity|]. split; [apply contains_empty|].
      split; [congruence | reflexivity].
    + exists (Error (slice0 300 (c :: raw'))).
      split; [reflexivity|]. split; [apply contains_refl|].
      split; [reflexivity | discriminate].
  - rewrite (parse_ok res raw Hr Hk), (parsed_invalid raw Hp). reflexivity.
Qed.

(** C6, as the code has it: on a status outside the success range the
    normalizer fails; the value it builds the error from is the first truthy
    of [error.message], [error] and "HTTP {status}", and the message of the
    error is the string conversion of that value (the value itself when it
    is a string); when the conversion throws, that is the failure. *)
Theorem http_error_message (res : provider_response) (raw : jsstring) :
  res_text res = Returned raw ->
  res_ok res = false ->
  let nested := opt_get (opt_get (parsed rt raw) (lit "error")) (lit "message") in
  let err := opt_get (parsed rt raw) (lit "error") in
  let generic := JString (lit "HTTP " ++ decimal (res_status res)) in
  let chosen :=
    if truthy nested then nested else if truthy err then err else generic in
  (exists e, parseOpenAICompat rt res = Thrown e)
  /\ (forall msg, ToString rt chosen = Returned msg ->
      parseOpenAICompat rt res = Thrown (Error msg))
  /\ (forall s, chosen = JString s -> parseOpenAICompat rt res = Thrown (Error s))
  /\ (truthy nested = false -> truthy err = false ->
      parseOpenAICompat rt res =
        Thrown (Error (lit "HTTP " ++ decimal (res_status res))))
  /\ (forall e, ToString rt chosen = Thrown e -> parseOpenAICompat rt res = Thrown e).
Proof.
  intros Hr Hk nested err generic chosen.
  rewrite (parse_not_ok res raw Hr Hk). fold nested err generic.
  assert (Hc : nested ||| err ||| generic = chosen).
  { unfold chosen, or_else. destruct (truthy nested) eqn:H1.
    - now rewrite H1.
    - reflexivity. }
  rewrite Hc. repeat split.
  - apply throw_new_Error_fails.
  - intros msg H. unfold throw_new_Error. now rewrite H.
  - intros s ->. reflexivity.
  - intros H1 H2. unfold chosen. now rewrite H1, H2.
  - intros e H. unfold throw_new_Error. now rewrite H.
Qed.

(** ** The fallback *)

Lemma describe_contains_message (e : exn) : contains (exn_message e) (describe e).
Proof.
  unfold describe. destruct (exn_message e) as [|c msg].
  - apply contains_empty.
  - apply contains_refl.
Qed.

Lemma fallback_both_thrown (env : Env) (fm : list value) (e1 e2 : exn) :
  result (groq_attempt rt env fm) = Thrown e1 ->
  result (deepseek_attempt rt env fm) = Thrown e2 ->
  result (fallback rt env fm) = Returned (failure_response rt e1 e2).
Proof.
  unfold fallback, result. intros H1 H2.
  destruct (groq_attempt rt env fm) as [log1 r1]. simpl in H1. subst r1.
  destruct (deepseek_attempt rt env fm) as [log2 r2]. simpl in H2. subst r2.
  reflexivity.
Qed.

(** C1: when the GROQ attempt fails with an error of message X and the
    DEEPSEEK attempt fails with an error of message Y, the handler answers
    with status 500 and an [error] text that contains X, Y, "GROQ" and
    "DEEPSEEK". *)
Theorem total_failure_reports_both (request : Request) (env : Env) (body : value)
    (fm : list value) (e1 e2 : exn) :
  str_eqb (req_method request) (lit "OPTIONS") = false ->
  JSON_parse rt (req_body request) = Some body ->
  compose body = Returned fm ->
  result (groq_attempt rt env fm) = Thrown e1 ->
  result (deepseek_attempt rt env fm) = Thrown e2 ->
  exists msg,
    result (onRequestPost rt request env) =
      Returned (new_Response
                  (JSON_stringify rt (JObject [ (lit "error", JString msg) ]))
                  500 corsHeaders)
    /\ contains (exn_message e1) msg
    /\ contains (exn_message e2) msg
    /\ contains (lit "GROQ") msg
    /\ contains (lit "DEEPSEEK") msg.
Proof.
  intros Hm Hp Hc H1 H2. exists (failure_message e1 e2).
  rewrite (onRequestPost_composed request env body fm Hm Hp Hc).
  rewrite (fallback_both_thrown env fm e1 e2 H1 H2).
  unfold failure_message. repeat split.
  - apply contains_app_r, contains_app_r, contains_app_l, describe_contains_message.
  - do 6 apply contains_app_r. apply describe_contains_message.
  - apply contains_app_l, contains_refl.
  - do 4 apply contains_app_r. apply contains_app_l, contains_refl.
Qed.

Lemma groq_url_is_not_deepseek_url : deepseek_url <> groq_url.
Proof. apply str_eqb_neq. reflexivity. Qed.

(** C2, as the code has it: when [GROQ_API_KEY] is absent the GROQ attempt
    fails at once, without a call, with the message "GROQ not configured",
    and the only call of the handler is the one to the DEEPSEEK endpoint. *)
Theorem groq_key_absent_skips_groq (request : Request) (env : Env) (body : value)
    (fm : list value) :
  GROQ_API_KEY env = None ->
  str_eqb (req_method request) (lit "OPTIONS") = false ->
  JSON_parse rt (req_body request) = Some body ->
  compose body = Returned fm ->
  groq_attempt rt env fm = ([], Thrown (Error (lit "GROQ not configured")))
  /\ calls (onRequestPost rt request env) = [deepseek_call rt env fm]
  /\ call_url (deepseek_call rt env fm) = deepseek_url
  /\ (forall c, In c (calls (onRequestPost rt request env)) -> call_url c <> groq_url).
Proof.
  intros Hk Hm Hp Hc.
  assert (Hg : groq_attempt rt env fm = ([], Thrown (Error (lit "GROQ not configured")))).
  { unfold groq_attempt. now rewrite Hk. }
  assert (Hcalls : calls (onRequestPost rt request env) = [deepseek_call rt env fm]).
  { rewrite (onRequestPost_composed request env body fm Hm Hp Hc).
    rewrite fallback_calls, Hg. reflexivity. }
  repeat split; try assumption.
  intros c Hin. rewrite Hcalls in Hin. destruct Hin as [<- | []].
  apply groq_url_is_not_deepseek_url.
Qed.

(** C3, on the code: with no key at all the fallback still calls the
    DEEPSEEK endpoint, and the call carries the header
    [Authorization: Bearer undefined]. *)
Theorem deepseek_called_without_key (fm : list value) :
  DEEPSEEK_API_KEY no_keys = None
  /\ calls (fallback rt no_keys fm) =
       [ mkCall deepseek_url (lit "POST")
           [ (lit "Content-Type", lit "application/json");
             (lit "Authorization", lit "Bearer undefined") ]
           (JSON_stringify rt (payload (lit "deepseek-chat") fm))
           8500 ].
Proof.
  split; [reflexivity|].
  rewrite fallback_calls, groq_attempt_calls. reflexivity.
Qed.

(** * Further properties of the handler *)

(** ** How the attempts end *)

Lemma groq_attempt_eq (env : Env) (fm : list value) :
  env_truthy (GROQ_API_KEY env) = true ->
  groq_attempt rt env fm =
    ([groq_call rt env fm], attempt_outcome rt (lit "GROQ") (groq_call rt env fm)).
Proof.
  intros K. unfold groq_attempt. rewrite K.
  unfold fetchWithTimeout, attempt_outcome, bind, lift, obind.
  fold (groq_call rt env fm).
  destruct (fetch rt (groq_call rt env fm)) as [res|e]; [|reflexivity].
  destruct (parseOpenAICompat rt res); reflexivity.
Qed.

Lemma groq_attempt_unconfigured (env : Env) (fm : list value) :
  env_truthy (GROQ_API_KEY env) = false ->
  groq_attempt rt env fm = ([], Thrown (Error (lit "GROQ not configured"))).
Proof. intros K. unfold groq_attempt. now rewrite K. Qed.

Lemma deepseek_attempt_eq (env : Env) (fm : list value) :
  deepseek_attempt rt env fm =
    ([deepseek_call rt env fm],
     attempt_outcome rt (lit "DEEPSEEK") (deepseek_call rt env fm)).
Proof.
  unfold deepseek_attempt, fetchWithTimeout, attempt_outcome, bind, lift, obind.
  fold (deepseek_call rt env fm).
  destruct (fetch rt (deepseek_call rt env fm)) as [res|e]; [|reflexivity].
  destruct (parseOpenAICompat rt res); reflexivity.
Qed.

Lemma attempt_outcome_returned (engine : jsstring) (c : fetch_call) (r : Response) :
  attempt_outcome rt engine c = Returned r ->
  exists res text,
    fetch rt c = Returned res
    /\ parseOpenAICompat rt res = Returned text
    /\ r = new_Response (JSON_stringify rt (success_body text engine)) 200 corsHeaders.
Proof.
  unfold attempt_outcome, obind.
  destruct (fetch rt c) as [res|e]; [|discriminate].
  destruct (parseOpenAICompat rt res) as [text|e] eqn:Hparse; [|discriminate].
  intros [= <-]. exists res, text. repeat split. exact Hparse.
Qed.

Lemma fallback_result (env : Env) (fm : list value) :
  result (fallback rt env fm) =
    match result (groq_attempt rt env fm) with
    | Returned r => Returned r
    | Thrown e1 =>
        match result (deepseek_attempt rt env fm) with
        | Returned r => Returned r
        | Thrown e2 => Returned (failure_response rt e1 e2)
        end
    end.
Proof.
  unfold fallback, result.
  destruct (groq_attempt rt env fm) as [log1 [r|e1]]; [reflexivity|].
  destruct (deepseek_attempt rt env fm) as [log2 [r|e2]]; reflexivity.
Qed.

(** The handler as a case analysis on the request. *)
Lemma onRequestPost_cases (request : Request) (env : Env) :
  (str_eqb (req_method request) (lit "OPTIONS") = true
   /\ onRequestPost rt request env = ([], Returned (new_Response [] 200 corsHeaders)))
  \/ (str_eqb (req_method request) (lit "OPTIONS") = false
      /\ JSON_parse rt (req_body request) = None
      /\ onRequestPost rt request env = ([], Returned (invalid_json_response rt)))
  \/ (exists body e,
        str_eqb (req_method request) (lit "OPTIONS") = false
        /\ JSON_parse rt (req_body request) = Some body
        /\ compose body = Thrown e
        /\ onRequestPost rt request env = ([], Thrown e))
  \/ (exists body fm,
        str_eqb (req_method request) (lit "OPTIONS") = false
        /\ JSON_parse rt (req_body request) = Some body
        /\ compose body = Returned fm
        /\ onRequestPost rt request env = fallback rt env fm).
Proof.
  unfold onRequestPost.
  destruct (str_eqb (req_method request) (lit "OPTIONS")) eqn:Hm; [now left|].
  right. destruct (JSON_parse rt (req_body request)) as [body|] eqn:Hp; [|now left].
  right. destruct (compose body) as [fm|e] eqn:Hc.
  - right. exists body, fm. repeat split; try assumption.
    now apply calls_bind_lift.
  - left. exists body, e. repeat split; assumption.
Qed.

Lemma compose_thrown (body : value) (e : exn) :
  compose body = Thrown e -> body = JNull \/ body = JUndefined.
Proof.
  destruct body; try (intros _; now (left + right)); unfold compose; simpl;
    try discriminate.
  destruct (own (lit "messages") props), (own (lit "targetLang") props),
    (own (lit "style") props); discriminate.
Qed.

(** ** The preflight *)

(** X1: an OPTIONS request is answered with an empty body, status 200 and the
    CORS headers, without a call, whatever its body and the configuration. *)
Theorem options_preflight (request : Request) (env : Env) :
  req_method request = lit "OPTIONS" ->
  onRequestPost rt request env = ([], Returned (new_Response [] 200 corsHeaders)).
Proof. intros Hm. unfold onRequestPost. rewrite Hm. reflexivity. Qed.

(** ** The tone *)

(** X2: [body.style] selects the tone of the system message: "concise" gives
    "Be concise.", "polite" gives "Be polite.", and every other value, an
    absent or falsy one included, gives "Be natural and helpful."; the tone
    is the third sentence of the system message that heads the composed
    list. *)
Theorem styleRule_selected (body bs : value) :
  get body (lit "style") = Returned bs ->
  exists directive tone msgs,
    compose body =
      Returned (JObject
                  [ (lit "role", JString (lit "system"));
                    (lit "content",
                     JString (lit "You are a travel translation and phrase assistant for Kazakhstan."
                              ++ lit " " ++ directive
                              ++ lit " " ++ tone
                              ++ lit " " ++ lit "When helpful, output short, ready-to-say phrases.")) ]
                :: msgs)
    /\ (bs = JString (lit "concise") -> tone = lit "Be concise.")
    /\ (bs = JString (lit "polite") -> tone = lit "Be polite.")
    /\ (bs <> JString (lit "concise") -> bs <> JString (lit "polite") ->
        tone = lit "Be natural and helpful.").
Proof.
  intros Hs.
  destruct (get_succeeds body bs _ (lit "messages") Hs) as [bm Hm].
  destruct (get_succeeds body bs _ (lit "targetLang") Hs) as [bt Ht].
  exists (langRule (targetLang bt)), (styleRule (style bs)), (messages bm).
  split; [now apply compose_explicit|]. repeat split.
  - intros ->. reflexivity.
  - intros ->. reflexivity.
  - intros Hc Hp. unfold style, or_else. destruct (truthy bs).
    + unfold styleRule. apply is_string_false in Hc. apply is_string_false in Hp.
      now rewrite Hc, Hp.
    + reflexivity.
Qed.

(** ** Success paths *)



(** X15: every failure of a configured GROQ, be it the call that is rejected
    (connection error, deadline) or the normalizer that fails on the
    response (error status, no text), is followed by one DEEPSEEK call. *)
Theorem groq_failure_hands_over (request : Request) (env : Env) (body : value)
    (fm : list value) :
  str_eqb (req_method request) (lit "OPTIONS") = false ->
  JSON_parse rt (req_body request) = Some body ->
  compose body = Returned fm ->
  env_truthy (GROQ_API_KEY env) = true ->
  (forall e, fetch rt (groq_call rt env fm) = Thrown e ->
     result (groq_attempt rt env fm) = Thrown e
     /\ calls (onRequestPost rt request env)
        = [groq_call rt env fm; deepseek_call rt env fm])
  /\ (forall res e,
        fetch rt (groq_call rt env fm) = Returned res ->
        parseOpenAICompat rt res = Thrown e ->
        result (groq_attempt rt env fm) = Thrown e
        /\ calls (onRequestPost rt request env)
           = [groq_call rt env fm; deepseek_call rt env fm]).
Proof.
  intros Hm Hp Hc K.
  rewrite (onRequestPost_composed request env body fm Hm Hp Hc).
  rewrite fallback_calls, (groq_attempt_eq env fm K).
  unfold result, calls, attempt_outcome, obind. simpl. split.
  - intros e Hf. now rewrite Hf.
  - intros res e Hf Ht. now rewrite Hf, Ht.
Qed.

(** ** What the handler does on every request *)

(** X5: on every request the handler issues no call, the GROQ call alone,
    the DEEPSEEK call alone, or the GROQ call and then the DEEPSEEK call:
    never more than two calls, never twice the same provider, never DEEPSEEK
    before GROQ; the deadline is 6500 ms for GROQ and 8500 ms for DEEPSEEK. *)
Theorem call_discipline (request : Request) (env : Env) :
  let sent := map (fun c => (call_url c, call_timeout c))
                  (calls (onRequestPost rt request env)) in
  sent = []
  \/ sent = [ (groq_url, 6500) ]
  \/ sent = [ (deepseek_url, 8500) ]
  \/ sent = [ (groq_url, 6500); (deepseek_url, 8500) ].
Proof.
  intros sent. subst sent.
  destruct (onRequestPost_cases request env)
    as [[_ H] | [(_ & _ & H) | [(body & e & _ & _ & _ & H) | (body & fm & _ & _ & _ & H)]]];
    rewrite H; try (now left).
  rewrite fallback_calls, groq_attempt_calls.
  destruct (env_truthy (GROQ_API_KEY env)) eqn:K.
  - destruct (result (groq_attempt rt env fm)).
    + right. left. reflexivity.
    + right. right. right. reflexivity.
  - rewrite (groq_attempt_unconfigured env fm K). right. right. left. reflexivity.
Qed.

Lemma fallback_returns (env : Env) (fm : list value) :
  exists r, result (fallback rt env fm) = Returned r.
Proof.
  rewrite fallback_result.
  destruct (result (groq_attempt rt env fm)); [now eexists|].
  destruct (result (deepseek_attempt rt env fm)); now eexists.
Qed.

Lemma groq_attempt_returned (env : Env) (fm : list value) (r : Response) :
  result (groq_attempt rt env fm) = Returned r ->
  exists text,
    r = new_Response (JSON_stringify rt (success_body text (lit "GROQ"))) 200 corsHeaders.
Proof.
  destruct (env_truthy (GROQ_API_KEY env)) eqn:K.
  - rewrite (groq_attempt_eq env fm K). unfold result. simpl. intros H.
    apply attempt_outcome_returned in H as (res & text & _ & _ & ->). now exists text.
  - rewrite (groq_attempt_unconfigured env fm K). discriminate.
Qed.

Lemma deepseek_attempt_returned (env : Env) (fm : list value) (r : Response) :
  result (deepseek_attempt rt env fm) = Returned r ->
  exists text,
    r = new_Response (JSON_stringify rt (success_body text (lit "DEEPSEEK"))) 200
                     corsHeaders.
Proof.
  rewrite deepseek_attempt_eq. unfold result. simpl. intros H.
  apply attempt_outcome_returned in H as (res & text & _ & _ & ->). now exists text.
Qed.

(** X6: every response of the handler carries the CORS headers, and its
    status is 200, 400 or 500. *)
Theorem responses_carry_cors (request : Request) (env : Env) (r : Response) :
  result (onRequestPost rt request env) = Returned r ->
  resp_headers r = corsHeaders
  /\ (resp_status r = 200 \/ resp_status r = 400 \/ resp_status r = 500).
Proof.
  destruct (onRequestPost_cases request env)
    as [[_ H] | [(_ & _ & H) | [(body & e & _ & _ & _ & H) | (body & fm & _ & _ & _ & H)]]];
    rewrite H; unfold result at 1; simpl.
  - intros [= <-]. split; [reflexivity | now left].
  - intros [= <-]. split; [reflexivity | right; now left].
  - discriminate.
  - fold (result (fallback rt env fm)). rewrite fallback_result.
    destruct (result (groq_attempt rt env fm)) as [r1|e1] eqn:H1.
    + intros [= <-]. apply groq_attempt_returned in H1 as [text ->].
      split; [reflexivity | now left].
    + destruct (result (deepseek_attempt rt env fm)) as [r2|e2] eqn:H2.
      * intros [= <-]. apply deepseek_attempt_returned in H2 as [text ->].
        split; [reflexivity | now left].
      * intros [= <-]. split; [reflexivity | right; now right].
Qed.

(** X7: the handler throws only when the parsed body is [null] (or
    [undefined]), at the first property read and before any call; no failure
    of a provider, of the network or of the normalizer escapes it. *)
Theorem only_null_body_throws (request : Request) (env : Env) (e : exn) :
  result (onRequestPost rt request env) = Thrown e ->
  exists body,
    JSON_parse rt (req_body request) = Some body
    /\ (body = JNull \/ body = JUndefined)
    /\ compose body = Thrown e
    /\ calls (onRequestPost rt request env) = [].
Proof.
  destruct (onRequestPost_cases request env)
    as [[_ H] | [(_ & _ & H) | [(body & e' & _ & Hp & Hc & H) | (body & fm & _ & _ & _ & H)]]];
    rewrite H; unfold result at 1; simpl; try discriminate.
  - intros [= <-]. exists body. repeat split; try assumption.
    now apply (compose_thrown body e').
  - fold (result (fallback rt env fm)).
    destruct (fallback_returns env fm) as [r ->]. discriminate.
Qed.

(** X11: a response of status 500 means that the prompt was composed, that
    both attempts failed and that DEEPSEEK was called; the response is the
    combined failure of the two errors. *)
Theorem status_500_means_both_failed (request : Request) (env : Env) (r : Response) :
  result (onRequestPost rt request env) = Returned r ->
  resp_status r = 500 ->
  exists fm e1 e2,
    result (groq_attempt rt env fm) = Thrown e1
    /\ result (deepseek_attempt rt env fm) = Thrown e2
    /\ r = failure_response rt e1 e2
    /\ In (deepseek_call rt env fm) (calls (onRequestPost rt request env)).
Proof.
  intros Hr Hs.
  destruct (onRequestPost_cases request env)
    as [[_ H] | [(_ & _ & H) | [(body & e & _ & _ & _ & H) | (body & fm & _ & _ & _ & H)]]];
    rewrite H in Hr |- *.
  - injection Hr as <-. discriminate.
  - injection Hr as <-. discriminate.
  - discriminate.
  - rewrite fallback_result in Hr.
    destruct (result (groq_attempt rt env fm)) as [r1|e1] eqn:H1.
    + injection Hr as <-. apply groq_attempt_returned in H1 as [text ->].
      discriminate.
    + destruct (result (deepseek_attempt rt env fm)) as [r2|e2] eqn:H2.
      * injection Hr as <-. apply deepseek_attempt_returned in H2 as [text ->].
        discriminate.
      * injection Hr as <-. exists fm, e1, e2. repeat split; try assumption.
        rewrite fallback_calls, H1. apply in_or_app. right. now left.
Qed.

(** X16: a response of status 400 means that the body of the request was
    not JSON; no provider was called. *)
Theorem status_400_means_invalid_json (request : Request) (env : Env) (r : Response) :
  result (onRequestPost rt request env) = Returned r ->
  resp_status r = 400 ->
  JSON_parse rt (req_body request) = None
  /\ r = invalid_json_response rt
  /\ calls (onRequestPost rt request env) = [].
Proof.
  destruct (onRequestPost_cases request env)
    as [[_ H] | [(_ & Hp & H) | [(body & e & _ & _ & _ & H) | (body & fm & _ & _ & _ & H)]]];
    rewrite H; unfold result at 1; simpl.
  - intros [= <-]. discriminate.
  - intros [= <-] _. now repeat split.
  - discriminate.
  - fold (result (fallback rt env fm)). rewrite fallback_result.
    destruct (result (groq_attempt rt env fm)) as [r1|e1] eqn:H1.
    + intros [= <-]. apply groq_attempt_returned in H1 as [text ->]. discriminate.
    + destruct (result (deepseek_attempt rt env fm)) as [r2|e2] eqn:H2.
      * intros [= <-]. apply deepseek_attempt_returned in H2 as [text ->].
        discriminate.
      * intros [= <-]. discriminate.
Qed.

(** ** Keys *)

(** X9: a [GROQ_API_KEY] that is the empty string counts as no key: the GROQ
    attempt fails at once with "GROQ not configured", and the only call of
    the handler is the DEEPSEEK one. *)
Theorem empty_groq_key_counts_as_absent (request : Request) (env : Env)
    (body : value) (fm : list value) :
  GROQ_API_KEY env = Some [] ->
  str_eqb (req_method request) (lit "OPTIONS") = false ->
  JSON_parse rt (req_body request) = Some body ->
  compose body = Returned fm ->
  groq_attempt rt env fm = ([], Thrown (Error (lit "GROQ not configured")))
  /\ calls (onRequestPost rt request env) = [deepseek_call rt env fm].
Proof.
  intros Hk Hm Hp Hc.
  assert (K : env_truthy (GROQ_API_KEY env) = false) by now rewrite Hk.
  split; [now apply groq_attempt_unconfigured|].
  rewrite (onRequestPost_composed request env body fm Hm Hp Hc).
  rewrite fallback_calls, (groq_attempt_unconfigured env fm K). reflexivity.
Qed.

(** X10: a call to the GROQ endpoint is made only with a key: the key is
    set and not empty, and the call is a POST with the headers
    [Content-Type: application/json] and [Authorization: Bearer <key>]. *)
Theorem groq_called_only_with_key (request : Request) (env : Env) (c : fetch_call) :
  In c (calls (onRequestPost rt request env)) ->
  call_url c = groq_url ->
  exists key,
    GROQ_API_KEY env = Some key
    /\ key <> []
    /\ call_method c = lit "POST"
    /\ call_headers c =
         [ (lit "Content-Type", lit "application/json");
           (lit "Authorization", lit "Bearer " ++ key) ].
Proof.
  destruct (onRequestPost_cases request env)
    as [[_ H] | [(_ & _ & H) | [(body & e & _ & _ & _ & H) | (body & fm & _ & _ & _ & H)]]];
    rewrite H; try (intros []).
  rewrite fallback_calls, groq_attempt_calls. intros Hin Hu.
  apply in_app_or in Hin as [Hin | Hin].
  - destruct (GROQ_API_KEY env) as [[|k key]|] eqn:Hk; simpl in Hin;
      try destruct Hin.
    + subst c. exists (k :: key). repeat split; try discriminate.
      unfold groq_call, provider_headers. simpl. now rewrite Hk.
    + destruct H0.
  - exfalso. destruct (result (groq_attempt rt env fm)); simpl in Hin;
      [destruct Hin|]. destruct Hin as [<- | []].
    now apply groq_url_is_not_deepseek_url.
Qed.

(** ** The normalizer *)

(** X8: the normalizer returns only on a success status, and what it
    returns is truthy: never an empty string, [null], [false] or zero. *)
Theorem normalizer_returns_truthy (res : provider_response) (v : value) :
  parseOpenAICompat rt res = Returned v ->
  truthy v = true /\ res_ok res = true /\ exists raw, res_text res = Returned raw.
Proof.
  intros H. destruct (res_text res) as [raw|e] eqn:Hr.
  2: { unfold parseOpenAICompat, obind in H. rewrite Hr in H. discriminate. }
  destruct (res_ok res) eqn:Hk.
  - rewrite (parse_ok res raw Hr Hk) in H. cbv zeta in H.
    match type of H with
    | (if negb (truthy ?t) then _ else _) = _ => destruct (truthy t) eqn:Ht
    end; simpl in H; [|discriminate].
    injection H as <-. repeat split; [exact Ht | now exists raw].
  - rewrite (parse_not_ok res raw Hr Hk) in H.
    match type of H with
    | throw_new_Error _ ?v = _ =>
        destruct (throw_new_Error_fails (A := value) v) as [e He]
    end.
    rewrite He in H. discriminate.
Qed.

Lemma invalid_json_not_ok (res : provider_response) (raw : jsstring) :
  res_text res = Returned raw ->
  JSON_parse rt raw = None ->
  res_ok res = false ->
  raw <> [] ->
  parseOpenAICompat rt res = Thrown (Error (slice0 300 raw)).
Proof.
  intros Hr Hp Hk Hne.
  rewrite (parse_not_ok res raw Hr Hk), (parsed_invalid raw Hp).
  unfold opt_get at 2 3. rewrite own_head.
  assert (Hs : truthy (JString (slice0 300 raw)) = true).
  { destruct raw; [congruence | reflexivity]. }
  remember (slice0 300 raw) as s.
  change (opt_get (JString s) (lit "message")) with JUndefined.
  rewrite (or_else_r JUndefined) by reflexivity.
  rewrite (or_else_l (JString s)) by exact Hs.
  reflexivity.
Qed.

(** X12: on a status outside the success range and a body that is not JSON
    and not empty, the message of the error is a prefix of the body, at most
    300 code units long, and the whole body when that has at most 300. *)
Theorem invalid_json_message_truncated (res : provider_response) (raw : jsstring)
    (e : exn) :
  res_text res = Returned raw ->
  JSON_parse rt raw = None ->
  res_ok res = false ->
  raw <> [] ->
  parseOpenAICompat rt res = Thrown e ->
  (List.length (exn_message e) <= 300)%nat
  /\ (exists rest, raw = exn_message e ++ rest)
  /\ ((List.length raw <= 300)%nat -> exn_message e = raw).
Proof.
  intros Hr Hp Hk Hne He.
  rewrite (invalid_json_not_ok res raw Hr Hp Hk Hne) in He.
  remember (slice0 300 raw) as s eqn:Es.
  injection He as <-. cbn [exn_message Error]. subst s. unfold slice0.
  repeat split.
  - apply firstn_le_length.
  - exists (skipn 300 raw). symmetry. apply firstn_skipn.
  - intros Hl. now apply firstn_all2.
Qed.

(** ** The text of a total failure *)

(** X13: an error without a message is reported by its name: when both
    attempts fail and GROQ's error has an empty message, the text of the 500
    response has the name of that error in GROQ's place. *)
Theorem nameless_failure_reported_by_name (request : Request) (env : Env)
    (body : value) (fm : list value) (e1 e2 : exn) :
  str_eqb (req_method request) (lit "OPTIONS") = false ->
  JSON_parse rt (req_body request) = Some body ->
  compose body = Returned fm ->
  result (groq_attempt rt env fm) = Thrown e1 ->
  result (deepseek_attempt rt env fm) = Thrown e2 ->
  exn_message e1 = [] ->
  result (onRequestPost rt request env) =
    Returned (new_Response
                (JSON_stringify rt
                   (JObject [ (lit "error",
                               JString (lit "GROQ" ++ failed_colon ++ exn_name e1
                                        ++ wide_semicolon ++ lit "DEEPSEEK"
                                        ++ failed_colon ++ describe e2)) ]))
                500 corsHeaders).
Proof.
  intros Hm Hp Hc H1 H2 He.
  rewrite (onRequestPost_composed request env body fm Hm Hp Hc).
  rewrite (fallback_both_thrown env fm e1 e2 H1 H2).
  unfold failure_response, failure_message, describe at 1, exn_toString.
  rewrite He. now destruct (exn_name e1).
Qed.

(** ** The deadline timer *)

Lemma clear_other_timers (id : nat) (l : list (nat * N)) :
  (forall p, In p l -> (fst p < id)%nat) ->
  filter (fun p => negb (Nat.eqb (fst p) id)) l = l.
Proof.
  induction l as [|p l IH]; intros H; simpl; [reflexivity|].
  assert (Hp : Nat.eqb (fst p) id = false).
  { apply Nat.eqb_neq. specialize (H p (or_introl eq_refl)). lia. }
  rewrite Hp. simpl. f_equal. apply IH. intros q Hq. apply H. now right.
Qed.

(** X14: [fetchWithTimeout] leaves no timer behind: whether the call
    completes or is rejected, the timers pending afterwards are those
    pending before, none of which it cleared; and what it issues and returns
    is the one call under its deadline. *)
Theorem fetchWithTimeout_leaves_no_timer (url method : jsstring) (hdrs : headers)
    (body : jsstring) (ms : N) (t0 : Timers) :
  timers_ok t0 ->
  fst (fetchWithTimeout_timers rt url method hdrs body ms t0)
  = fetchWithTimeout rt url method hdrs body ms
  /\ pending (snd (fetchWithTimeout_timers rt url method hdrs body ms t0))
     = pending t0
  /\ timers_ok (snd (fetchWithTimeout_timers rt url method hdrs body ms t0)).
Proof.
  intros Hok.
  assert (Hp : pending (snd (fetchWithTimeout_timers rt url method hdrs body ms t0))
               = pending t0).
  { unfold fetchWithTimeout_timers, setTimeout, try_finally, clearTimeout. simpl.
    rewrite Nat.eqb_refl. simpl. apply clear_other_timers. exact Hok. }
  split; [reflexivity|]. split; [exact Hp|].
  intros p Hin. rewrite Hp in Hin. specialize (Hok p Hin).
  unfold fetchWithTimeout_timers, setTimeout, try_finally, clearTimeout. simpl. lia.
Qed.

End Properties.

(** * Examples on the scripted runtime *)

(** The completion of the spec's example is returned as it is. *)
Example normalizer_salem :
  parseOpenAICompat groq_answers (mkProv 200 (Returned salem_text))
  = Returned (JString salem).
Proof. reflexivity. Qed.

(** A body without [targetLang] and [style] gets the Kazakh directive and
    the normal tone. *)
Example compose_defaults : compose (JObject []) = Returned (default_prompt []).
Proof. reflexivity. Qed.

(** A body that is the JSON text [null] is not answered: the handler throws
    at the first property read, outside every [try]. *)
Example null_body_throws :
  onRequestPost both_fail (post (json "null")) both_keys
  = ([], Thrown (TypeError (lit "Cannot read properties of null (reading 'messages')"))).
Proof. reflexivity. Qed.

Lemma total_failure_reports_both_witness :
  str_eqb (req_method (post (json "{}"))) (lit "OPTIONS") = false
  /\ JSON_parse both_fail (req_body (post (json "{}"))) = Some (JObject [])
  /\ compose (JObject []) = Returned (default_prompt [])
  /\ result (groq_attempt both_fail both_keys (default_prompt []))
     = Thrown (Error (lit "quota exceeded"))
  /\ result (deepseek_attempt both_fail both_keys (default_prompt []))
     = Thrown aborted
  /\ exists msg,
       result (onRequestPost both_fail (post (json "{}")) both_keys) =
         Returned (new_Response
                     (JSON_stringify both_fail
                        (JObject [ (lit "error", JString msg) ]))
                     500 corsHeaders)
       /\ contains (lit "quota exceeded") msg
       /\ contains (lit "The operation was aborted") msg
       /\ contains (lit "GROQ") msg
       /\ contains (lit "DEEPSEEK") msg.
Proof.
  repeat (split; [reflexivity|]).
  apply (total_failure_reports_both both_fail (post (json "{}")) both_keys
           (JObject []) (default_prompt []) (Error (lit "quota exceeded")) aborted);
    reflexivity.
Defined.

Lemma groq_key_absent_skips_groq_witness :
  GROQ_API_KEY no_keys = None
  /\ groq_attempt both_fail no_keys (default_prompt [])
     = ([], Thrown (Error (lit "GROQ not configured")))
  /\ calls (onRequestPost both_fail (post (json "{}")) no_keys)
     = [deepseek_call both_fail no_keys (default_prompt [])]
  /\ call_url (deepseek_call both_fail no_keys (default_prompt [])) = deepseek_url
  /\ (forall c, In c (calls (onRequestPost both_fail (post (json "{}")) no_keys)) ->
      call_url c <> groq_url).
Proof.
  split; [reflexivity|].
  apply (groq_key_absent_skips_groq both_fail (post (json "{}")) no_keys
           (JObject []) (default_prompt [])); reflexivity.
Defined.

(** C2, against the wording of the claim: the failure recorded for GROQ does
    not have the message "not configured". *)
Lemma groq_absent_message_differs :
  GROQ_API_KEY no_keys = None
  /\ exists e,
       result (groq_attempt both_fail no_keys (default_prompt [])) = Thrown e
       /\ exn_message e = lit "GROQ not configured"
       /\ exn_message e <> lit "not configured".
Proof.
  split; [reflexivity|]. eexists. split; [reflexivity|].
  split; [reflexivity|]. apply str_eqb_neq. reflexivity.
Qed.

Lemma normalizer_first_text_witness :
  res_text (mkProv 200 (Returned salem_text)) = Returned salem_text
  /\ res_ok (mkProv 200 (Returned salem_text)) = true
  /\ JSON_parse groq_answers salem_text = Some salem_data
  /\ parseOpenAICompat groq_answers (mkProv 200 (Returned salem_text))
     = Returned (JString salem).
Proof.
  repeat (split; [reflexivity|]).
  apply (normalizer_first_text groq_answers (mkProv 200 (Returned salem_text))
           salem_text salem_data eq_refl eq_refl eq_refl).
  reflexivity.
Defined.

(** C4, against the claim: a content that is an empty array.  None of the
    three places holds a non-empty text, and the normalizer does not fail:
    it returns the array, and the handler answers with it as the text. *)
Lemma empty_array_is_returned :
  res_ok (mkProv 200 (Returned empty_array_text)) = true
  /\ JSON_parse answers_empty_array empty_array_text = Some empty_array_data
  /\ nonempty_text
       (opt_get (opt_get (opt_first (opt_get empty_array_data (lit "choices")))
                         (lit "message")) (lit "content")) = false
  /\ nonempty_text
       (opt_get (opt_first (opt_get empty_array_data (lit "choices"))) (lit "text"))
     = false
  /\ nonempty_text (opt_get empty_array_data (lit "text")) = false
  /\ parseOpenAICompat answers_empty_array (mkProv 200 (Returned empty_array_text))
     = Returned (JArray [])
  /\ result (onRequestPost answers_empty_array (post (json "{}")) both_keys) =
       Returned (new_Response
                   (JSON_stringify answers_empty_array
                      (JObject [ (lit "text", JArray []);
                                 (lit "engine", JString (lit "GROQ")) ]))
                   200 corsHeaders).
Proof. repeat (split; [reflexivity|]). reflexivity. Qed.

Lemma invalid_json_failure_witness :
  res_text (mkProv 502 (Returned gateway_page)) = Returned gateway_page
  /\ JSON_parse both_fail gateway_page = None
  /\ res_ok (mkProv 502 (Returned gateway_page)) = false
  /\ exists e,
       parseOpenAICompat both_fail (mkProv 502 (Returned gateway_page)) = Thrown e
       /\ contains (slice0 300 gateway_page) (exn_message e)
       /\ (gateway_page <> [] -> e = Error (slice0 300 gateway_page))
       /\ (gateway_page = [] ->
           e = Error (lit "HTTP " ++ decimal (res_status (mkProv 502 (Returned gateway_page))))).
Proof.
  repeat (split; [reflexivity|]).
  apply (invalid_json_failure both_fail (mkProv 502 (Returned gateway_page))
           gateway_page eq_refl eq_refl).
  reflexivity.
Defined.

(** C5, against the claim: on status 200 the error of a body that is not
    JSON says nothing of the body. *)
Lemma invalid_json_with_ok_status :
  JSON_parse both_fail gateway_page = None
  /\ parseOpenAICompat both_fail (mkProv 200 (Returned gateway_page))
     = Thrown (Error (lit "Empty response text"))
  /\ ~ contains (slice0 300 gateway_page) (lit "Empty response text").
Proof.
  split; [reflexivity|]. split; [reflexivity|].
  intros H. apply contains_containsb in H. discriminate H.
Qed.

Lemma http_error_message_witness :
  res_text (mkProv 500 (Returned quota_text)) = Returned quota_text
  /\ res_ok (mkProv 500 (Returned quota_text)) = false
  /\ parseOpenAICompat both_fail (mkProv 500 (Returned quota_text))
     = Thrown (Error (lit "quota exceeded")).
Proof.
  repeat (split; [reflexivity|]).
  destruct (http_error_message both_fail (mkProv 500 (Returned quota_text))
              quota_text eq_refl eq_refl) as (_ & _ & Hstring & _ & _).
  apply Hstring. reflexivity.
Defined.

(** C6, against the claim: an [error] field that has no string form.  The
    body has no [error.message], its [error] is an object with an own
    [toString], and the failure is the TypeError of the conversion: its
    message comes from neither field and is not "HTTP 500". *)
Lemma unconvertible_error_field :
  res_ok (mkProv 500 (Returned unconvertible_text)) = false
  /\ JSON_parse both_fail unconvertible_text
     = Some (JObject [ (lit "error", JObject [ (lit "toString", JNumber 1%float) ]) ])
  /\ opt_get (opt_get (parsed both_fail unconvertible_text) (lit "error")) (lit "message")
     = JUndefined
  /\ parseOpenAICompat both_fail (mkProv 500 (Returned unconvertible_text))
     = Thrown (TypeError (lit "Cannot convert object to primitive value"))
  /\ lit "Cannot convert object to primitive value" <> lit "HTTP 500".
Proof.
  repeat (split; [reflexivity|]). apply str_eqb_neq. reflexivity.
Qed.

Lemma langRule_selected_witness :
  get (JObject [ (lit "targetLang", JString (lit "ru")) ]) (lit "targetLang")
  = Returned (JString (lit "ru"))
  /\ exists directive tone msgs,
       compose (JObject [ (lit "targetLang", JString (lit "ru")) ]) =
         Returned (JObject
                     [ (lit "role", JString (lit "system"));
                       (lit "content",
                        JString (lit "You are a travel translation and phrase assistant for Kazakhstan."
                                 ++ lit " " ++ directive
                                 ++ lit " " ++ tone
                                 ++ lit " " ++ lit "When helpful, output short, ready-to-say phrases.")) ]
                   :: msgs)
       /\ directive = lit "Reply ONLY in Russian. Never use English.".
Proof.
  split; [reflexivity|].
  destruct (langRule_selected (JObject [ (lit "targetLang", JString (lit "ru")) ])
              (JString (lit "ru")) eq_refl)
    as (directive & tone & msgs & Hc & _ & Hru & _).
  exists directive, tone, msgs. split; [exact Hc | now apply Hru].
Defined.

(** C7, against the claim: an empty [targetLang] is neither "kk" nor "ru",
    and the system message asks for Kazakh, not for Simplified Chinese. *)
Lemma empty_targetLang_selects_kazakh :
  get (JObject [ (lit "targetLang", JString []) ]) (lit "targetLang")
  = Returned (JString [])
  /\ JString [] <> JString (lit "kk")
  /\ JString [] <> JString (lit "ru")
  /\ compose (JObject [ (lit "targetLang", JString []) ]) =
       Returned [ JObject
                   [ (lit "role", JString (lit "system"));
                     (lit "content",
                      JString (lit "You are a travel translation and phrase assistant for Kazakhstan."
                               ++ lit " " ++ lit "Reply ONLY in Kazakh. Never use English."
                               ++ lit " " ++ lit "Be natural and helpful."
                               ++ lit " " ++ lit "When helpful, output short, ready-to-say phrases.")) ] ]
  /\ ~ contains (lit "Reply ONLY in Simplified Chinese. Never use English.")
        (lit "You are a travel translation and phrase assistant for Kazakhstan."
         ++ lit " " ++ lit "Reply ONLY in Kazakh. Never use English."
         ++ lit " " ++ lit "Be natural and helpful."
         ++ lit " " ++ lit "When helpful, output short, ready-to-say phrases.").
Proof.
  split; [reflexivity|]. split; [discriminate|]. split; [discriminate|].
  split; [reflexivity|].
  intros H. apply contains_containsb in H. discriminate H.
Qed.

Lemma falsy_targetLang_defaults_kk_witness :
  get (JObject [ (lit "targetLang", JString []) ]) (lit "targetLang")
  = Returned (JString [])
  /\ truthy (JString []) = false
  /\ targetLang (JString []) = JString (lit "kk")
  /\ langRule (targetLang (JString [])) = lit "Reply ONLY in Kazakh. Never use English."
  /\ exists sr msgs,
       compose (JObject [ (lit "targetLang", JString []) ]) =
         Returned (system_message
                     (system (lit "Reply ONLY in Kazakh. Never use English.") sr)
                   :: msgs).
Proof.
  repeat (split; [reflexivity|]).
  apply (falsy_targetLang_defaults_kk (JObject [ (lit "targetLang", JString []) ])
           (JString [])); reflexivity.
Defined.

Lemma outbound_messages_witness :
  JSON_parse groq_answers
    (req_body (post (json "{'messages':[{'role':'user','content':'hi'}]}")))
  = Some (JObject [ (lit "messages", JArray [ user_hi ]) ])
  /\ get (JObject [ (lit "messages", JArray [ user_hi ]) ]) (lit "messages")
     = Returned (JArray [ user_hi ])
  /\ In (groq_call groq_answers both_keys (default_prompt [ user_hi ]))
        (calls (onRequestPost groq_answers
                  (post (json "{'messages':[{'role':'user','content':'hi'}]}"))
                  both_keys))
  /\ exists model bt bs,
       get (JObject [ (lit "messages", JArray [ user_hi ]) ]) (lit "targetLang")
       = Returned bt
       /\ get (JObject [ (lit "messages", JArray [ user_hi ]) ]) (lit "style")
          = Returned bs
       /\ call_body (groq_call groq_answers both_keys (default_prompt [ user_hi ])) =
            JSON_stringify groq_answers
              (JObject
                 [ (lit "model", JString model);
                   (lit "messages",
                    JArray
                      [ JObject
                          [ (lit "role", JString (lit "system"));
                            (lit "content",
                             JString (lit "You are a travel translation and phrase assistant for Kazakhstan."
                                      ++ lit " " ++ langRule (targetLang bt)
                                      ++ lit " " ++ styleRule (style bs)
                                      ++ lit " " ++ lit "When helpful, output short, ready-to-say phrases.")) ];
                        user_hi ]);
                   (lit "temperature", JNumber 0x1.999999999999ap-2%float) ]).
Proof.
  split; [reflexivity|]. split; [reflexivity|]. split; [left; reflexivity|].
  apply (outbound_messages groq_answers
           (post (json "{'messages':[{'role':'user','content':'hi'}]}"))
           both_keys (JObject [ (lit "messages", JArray [ user_hi ]) ])
           (JArray [ user_hi ])
           (groq_call groq_answers both_keys (default_prompt [ user_hi ]))
           eq_refl eq_refl).
  left. reflexivity.
Defined.

Lemma invalid_json_is_400_witness :
  str_eqb (req_method (post (lit "not json"))) (lit "OPTIONS") = false
  /\ JSON_parse both_fail (req_body (post (lit "not json"))) = None
  /\ result (onRequestPost both_fail (post (lit "not json")) both_keys) =
       Returned (new_Response
                   (JSON_stringify both_fail
                      (JObject [ (lit "error", JString (lit "Invalid JSON")) ]))
                   400 corsHeaders)
  /\ calls (onRequestPost both_fail (post (lit "not json")) both_keys) = [].
Proof.
  split; [reflexivity|]. split; [reflexivity|].
  apply (invalid_json_is_400 both_fail (post (lit "not json")) both_keys);
    reflexivity.
Defined.

(** C3, on a whole request: no key is configured, and the request [{}]
    still reaches the DEEPSEEK endpoint with a bearer token "undefined". *)
Example request_without_keys :
  map (fun c => (call_url c, call_headers c))
      (calls (onRequestPost both_fail (post (json "{}")) no_keys))
  = [ (deepseek_url,
       [ (lit "Content-Type", lit "application/json");
         (lit "Authorization", lit "Bearer undefined") ]) ].
Proof. reflexivity. Qed.

(** * Examples for the further properties *)

Lemma options_preflight_witness :
  req_method preflight = lit "OPTIONS"
  /\ JSON_parse both_fail (req_body preflight) = None
  /\ onRequestPost both_fail preflight no_keys
     = ([], Returned (new_Response [] 200 corsHeaders)).
Proof.
  split; [reflexivity|]. split; [reflexivity|].
  apply (options_preflight both_fail preflight no_keys). reflexivity.
Defined.

Lemma styleRule_selected_witness :
  get (JObject []) (lit "style") = Returned JUndefined
  /\ JUndefined <> JString (lit "concise")
  /\ JUndefined <> JString (lit "polite")
  /\ exists directive tone msgs,
       compose (JObject []) =
         Returned (JObject
                     [ (lit "role", JString (lit "system"));
                       (lit "content",
                        JString (lit "You are a travel translation and phrase assistant for Kazakhstan."
                                 ++ lit " " ++ directive
                                 ++ lit " " ++ tone
                                 ++ lit " " ++ lit "When helpful, output short, ready-to-say phrases.")) ]
                   :: msgs)
       /\ tone = lit "Be natural and helpful.".
Proof.
  split; [reflexivity|]. split; [discriminate|]. split; [discriminate|].
  destruct (styleRule_selected (JObject []) JUndefined eq_refl)
    as (directive & tone & msgs & Hc & _ & _ & H).
  exists directive, tone, msgs. split; [exact Hc | apply H; discriminate].
Defined.



Lemma groq_failure_hands_over_witness :
  str_eqb (req_method (post (json "{}"))) (lit "OPTIONS") = false
  /\ JSON_parse deepseek_answers (req_body (post (json "{}"))) = Some (JObject [])
  /\ compose (JObject []) = Returned (default_prompt [])
  /\ env_truthy (GROQ_API_KEY both_keys) = true
  /\ fetch deepseek_answers (groq_call deepseek_answers both_keys (default_prompt []))
     = Thrown aborted
  /\ result (groq_attempt deepseek_answers both_keys (default_prompt []))
     = Thrown aborted
  /\ calls (onRequestPost deepseek_answers (post (json "{}")) both_keys)
     = [ groq_call deepseek_answers both_keys (default_prompt []);
         deepseek_call deepseek_answers both_keys (default_prompt []) ].
Proof.
  repeat (split; [reflexivity|]).
  destruct (groq_failure_hands_over deepseek_answers (post (json "{}")) both_keys
              (JObject []) (default_prompt []) eq_refl eq_refl eq_refl eq_refl)
    as [H _].
  exact (proj2 (H aborted eq_refl)).
Defined.

Lemma responses_carry_cors_witness :
  result (onRequestPost both_fail (post (lit "not json")) both_keys)
  = Returned (invalid_json_response both_fail)
  /\ resp_headers (invalid_json_response both_fail) = corsHeaders
  /\ (resp_status (invalid_json_response both_fail) = 200
      \/ resp_status (invalid_json_response both_fail) = 400
      \/ resp_status (invalid_json_response both_fail) = 500).
Proof.
  split; [reflexivity|].
  apply (responses_carry_cors both_fail (post (lit "not json")) both_keys).
  reflexivity.
Defined.

Lemma only_null_body_throws_witness :
  result (onRequestPost both_fail (post (json "null")) both_keys)
  = Thrown (TypeError (lit "Cannot read properties of null (reading 'messages')"))
  /\ exists body,
       JSON_parse both_fail (req_body (post (json "null"))) = Some body
       /\ (body = JNull \/ body = JUndefined)
       /\ compose body
          = Thrown (TypeError (lit "Cannot read properties of null (reading 'messages')"))
       /\ calls (onRequestPost both_fail (post (json "null")) both_keys) = [].
Proof.
  split; [reflexivity|].
  apply (only_null_body_throws both_fail (post (json "null")) both_keys).
  reflexivity.
Defined.

Lemma status_500_means_both_failed_witness :
  result (onRequestPost both_fail (post (json "{}")) both_keys)
  = Returned (failure_response both_fail (Error (lit "quota exceeded")) aborted)
  /\ resp_status (failure_response both_fail (Error (lit "quota exceeded")) aborted) = 500
  /\ exists fm e1 e2,
       result (groq_attempt both_fail both_keys fm) = Thrown e1
       /\ result (deepseek_attempt both_fail both_keys fm) = Thrown e2
       /\ failure_response both_fail (Error (lit "quota exceeded")) aborted
          = failure_response both_fail e1 e2
       /\ In (deepseek_call both_fail both_keys fm)
             (calls (onRequestPost both_fail (post (json "{}")) both_keys)).
Proof.
  split; [reflexivity|]. split; [reflexivity|].
  apply (status_500_means_both_failed both_fail (post (json "{}")) both_keys);
    reflexivity.
Defined.

Lemma status_400_means_invalid_json_witness :
  result (onRequestPost both_fail (post (lit "not json")) both_keys)
  = Returned (invalid_json_response both_fail)
  /\ resp_status (invalid_json_response both_fail) = 400
  /\ JSON_parse both_fail (req_body (post (lit "not json"))) = None
  /\ invalid_json_response both_fail = invalid_json_response both_fail
  /\ calls (onRequestPost both_fail (post (lit "not json")) both_keys) = [].
Proof.
  split; [reflexivity|]. split; [reflexivity|].
  apply (status_400_means_invalid_json both_fail (post (lit "not json")) both_keys);
    reflexivity.
Defined.

Lemma empty_groq_key_counts_as_absent_witness :
  GROQ_API_KEY empty_groq_key = Some []
  /\ str_eqb (req_method (post (json "{}"))) (lit "OPTIONS") = false
  /\ JSON_parse both_fail (req_body (post (json "{}"))) = Some (JObject [])
  /\ compose (JObject []) = Returned (default_prompt [])
  /\ groq_attempt both_fail empty_groq_key (default_prompt [])
     = ([], Thrown (Error (lit "GROQ not configured")))
  /\ calls (onRequestPost both_fail (post (json "{}")) empty_groq_key)
     = [deepseek_call both_fail empty_groq_key (default_prompt [])].
Proof.
  repeat (split; [reflexivity|]).
  apply (empty_groq_key_counts_as_absent both_fail (post (json "{}")) empty_groq_key
           (JObject []) (default_prompt [])); reflexivity.
Defined.

Lemma groq_called_only_with_key_witness :
  In (groq_call both_fail both_keys (default_prompt []))
     (calls (onRequestPost both_fail (post (json "{}")) both_keys))
  /\ call_url (groq_call both_fail both_keys (default_prompt [])) = groq_url
  /\ exists key,
       GROQ_API_KEY both_keys = Some key
       /\ key <> []
       /\ call_method (groq_call both_fail both_keys (default_prompt [])) = lit "POST"
       /\ call_headers (groq_call both_fail both_keys (default_prompt [])) =
            [ (lit "Content-Type", lit "application/json");
              (lit "Authorization", lit "Bearer " ++ key) ].
Proof.
  split; [left; reflexivity|]. split; [reflexivity|].
  apply (groq_called_only_with_key both_fail (post (json "{}")) both_keys
           (groq_call both_fail both_keys (default_prompt []))).
  - left. reflexivity.
  - reflexivity.
Defined.

Lemma normalizer_returns_truthy_witness :
  parseOpenAICompat groq_answers (mkProv 200 (Returned salem_text))
  = Returned (JString salem)
  /\ truthy (JString salem) = true
  /\ res_ok (mkProv 200 (Returned salem_text)) = true
  /\ exists raw, res_text (mkProv 200 (Returned salem_text)) = Returned raw.
Proof.
  split; [reflexivity|].
  apply (normalizer_returns_truthy groq_answers (mkProv 200 (Returned salem_text))
           (JString salem)).
  reflexivity.
Defined.

Lemma invalid_json_message_truncated_witness :
  res_text (mkProv 502 (Returned gateway_page)) = Returned gateway_page
  /\ JSON_parse both_fail gateway_page = None
  /\ res_ok (mkProv 502 (Returned gateway_page)) = false
  /\ gateway_page <> []
  /\ parseOpenAICompat both_fail (mkProv 502 (Returned gateway_page))
     = Thrown (Error gateway_page)
  /\ (List.length (exn_message (Error gateway_page)) <= 300)%nat
  /\ (exists rest, gateway_page = exn_message (Error gateway_page) ++ rest)
  /\ ((List.length gateway_page <= 300)%nat ->
      exn_message (Error gateway_page) = gateway_page).
Proof.
  repeat (split; [reflexivity|]). split; [discriminate|]. split; [reflexivity|].
  apply (invalid_json_message_truncated both_fail (mkProv 502 (Returned gateway_page))
           gateway_page (Error gateway_page)); try reflexivity.
  discriminate.
Defined.

Lemma nameless_failure_reported_by_name_witness :
  str_eqb (req_method (post (json "{}"))) (lit "OPTIONS") = false
  /\ JSON_parse groq_rejects_silently (req_body (post (json "{}"))) = Some (JObject [])
  /\ compose (JObject []) = Returned (default_prompt [])
  /\ result (groq_attempt groq_rejects_silently both_keys (default_prompt []))
     = Thrown (TypeError [])
  /\ result (deepseek_attempt groq_rejects_silently both_keys (default_prompt []))
     = Thrown aborted
  /\ exn_message (TypeError []) = []
  /\ result (onRequestPost groq_rejects_silently (post (json "{}")) both_keys) =
       Returned (new_Response
                   (JSON_stringify groq_rejects_silently
                      (JObject [ (lit "error",
                                  JString (lit "GROQ" ++ failed_colon
                                           ++ exn_name (TypeError [])
                                           ++ wide_semicolon ++ lit "DEEPSEEK"
                                           ++ failed_colon ++ describe aborted)) ]))
                   500 corsHeaders).
Proof.
  repeat (split; [reflexivity|]).
  apply (nameless_failure_reported_by_name groq_rejects_silently (post (json "{}"))
           both_keys (JObject []) (default_prompt []) (TypeError []) aborted);
    reflexivity.
Defined.

Lemma two_timers_ok : timers_ok two_timers.
Proof. intros p [<- | [<- | []]]; simpl; lia. Defined.

Lemma fetchWithTimeout_leaves_no_timer_witness :
  timers_ok two_timers
  /\ fst (fetchWithTimeout_timers both_fail groq_url (lit "POST") [] [] 6500 two_timers)
     = fetchWithTimeout both_fail groq_url (lit "POST") [] [] 6500
  /\ pending (snd (fetchWithTimeout_timers both_fail groq_url (lit "POST") [] []
                     6500 two_timers))
     = pending two_timers
  /\ timers_ok (snd (fetchWithTimeout_timers both_fail groq_url (lit "POST") [] []
                       6500 two_timers)).
Proof.
  split; [exact two_timers_ok|].
  apply (fetchWithTimeout_leaves_no_timer both_fail groq_url (lit "POST") [] []
           6500 two_timers two_timers_ok).
Defined.
